(** * xctrace-skill: the trace capture and analysis scripts

    A shallow embedding of [scripts/trace_record.py], [scripts/trace_export.py],
    [scripts/trace_analyze.py] and [scripts/trace_attach.py], and the
    properties of the recorder, the TOC extractor, the insight engine and
    the process resolver.

    Conventions of the embedding.
    - A Python [str] is a [string]; each [ascii] stands for one code point
      below 256, and [isspace] and [lower] follow Python on that range.
    - [Optional[str]] is [option string]; Python truthiness is [truthy].
    - A function that can raise returns an [Outcome]; a function that also
      reads or changes the machine (files, console, clock, subprocesses) is
      a computation [M A] over a [World].
    - [subprocess.run] and [ET.fromstring] are not part of the repository:
      they are Variables of the sections that use them. *)

From Stdlib Require Import String Ascii List Bool ZArith NArith QArith Lia.
From Stdlib Require Import DecimalString.
Import ListNotations.
Close Scope Q_scope.
Open Scope string_scope.

(** ** Python strings *)

Module PyStr.

(** [str.isspace] on one code point below 256. *)
Definition isspace (c : ascii) : bool :=
  let n := nat_of_ascii c in
  (((9 <=? n) && (n <=? 13)) || ((28 <=? n) && (n <=? 32))
   || (n =? 133) || (n =? 160))%nat.

(** [str.lower] on one code point below 256: A-Z and the Latin-1 capitals. *)
Definition lower_char (c : ascii) : ascii :=
  let n := nat_of_ascii c in
  if (((65 <=? n) && (n <=? 90))
      || ((192 <=? n) && (n <=? 222) && negb (n =? 215)))%nat
  then ascii_of_nat (n + 32) else c.

Fixpoint lower (s : string) : string :=
  match s with
  | EmptyString => EmptyString
  | String c s' => String (lower_char c) (lower s')
  end.

(** [s.replace(old, new)] for one-character [old] and [new]. *)
Fixpoint replace (old new : ascii) (s : string) : string :=
  match s with
  | EmptyString => EmptyString
  | String c s' => String (if Ascii.eqb c old then new else c) (replace old new s')
  end.

Fixpoint lstrip (s : string) : string :=
  match s with
  | EmptyString => EmptyString
  | String c s' => if isspace c then lstrip s' else s
  end.

Fixpoint rstrip (s : string) : string :=
  match s with
  | EmptyString => EmptyString
  | String c s' =>
      match rstrip s' with
      | EmptyString => if isspace c then EmptyString else String c EmptyString
      | r => String c r
      end
  end.

Definition strip (s : string) : string := rstrip (lstrip s).

(** [s.split(sep)] for a one-character separator: never the empty list. *)
Fixpoint split (sep : ascii) (s : string) : list string :=
  match s with
  | EmptyString => [EmptyString]
  | String c s' =>
      if Ascii.eqb c sep then EmptyString :: split sep s'
      else match split sep s' with
           | [] => [String c EmptyString]
           | w :: ws => String c w :: ws
           end
  end.

(** The first whitespace-free word of [s] and what follows it. *)
Fixpoint span_word (s : string) : string * string :=
  match s with
  | EmptyString => (EmptyString, EmptyString)
  | String c s' =>
      if isspace c then (EmptyString, s)
      else let (w, r) := span_word s' in (String c w, r)
  end.

(** [s.split(None, 1)]: leading whitespace is skipped, the first word is cut
    off, the whitespace after it is skipped, and the remainder (if any) is
    kept up to the end of the string, trailing whitespace included. *)
Definition split_ws1 (s : string) : list string :=
  match lstrip s with
  | EmptyString => []
  | t => let (w, r) := span_word t in
         match lstrip r with
         | EmptyString => [w]
         | r' => [w; r']
         end
  end.

(** [key in s] on strings. *)
Fixpoint startswith (key s : string) : bool :=
  match key, s with
  | EmptyString, _ => true
  | String _ _, EmptyString => false
  | String a key', String b s' => Ascii.eqb a b && startswith key' s'
  end.

Fixpoint contains (key s : string) : bool :=
  startswith key s ||
  match s with
  | EmptyString => false
  | String _ s' => contains key s'
  end.

(** [str(n)] for a length. *)
Definition of_nat (n : nat) : string := NilZero.string_of_uint (Nat.to_uint n).

Definition nonempty (s : string) : bool :=
  match s with EmptyString => false | _ => true end.

End PyStr.

(** Truthiness of an [Optional[str]]: [None] and [""] are false. *)
Definition truthy (o : option string) : bool :=
  match o with
  | Some s => PyStr.nonempty s
  | None => false
  end.

(** Truthiness of an [Optional[list[str]]]: [None] and [[]] are false. *)
Definition truthy_list (o : option (list string)) : bool :=
  match o with
  | Some (_ :: _) => true
  | _ => false
  end.

(** ** Exceptions, the machine, and computations *)

Inductive Exception : Type :=
| KeyboardInterrupt
| UnboundLocalError (name : string)
| RuntimeError (msg : string)
| FileNotFoundError (msg : string)
| OSError (msg : string).

Inductive Outcome (A : Type) : Type :=
| Return (a : A)
| Raise (e : Exception).
Arguments Return {A} a.
Arguments Raise {A} e.

(** What the scripts see of the machine: the size of every existing path
    ([os.path.exists], [os.path.getsize]), what has been printed, and the
    reading [datetime.now().strftime("%Y%m%d_%H%M%S")] of the clock. *)
Record World : Type := mkWorld {
  files : string -> option N;
  console : list string;
  clock : string
}.

Definition M (A : Type) : Type := World -> Outcome A * World.

Definition ret {A} (a : A) : M A := fun w => (Return a, w).
Definition raise {A} (e : Exception) : M A := fun w => (Raise e, w).
Definition bind {A B} (c : M A) (k : A -> M B) : M B :=
  fun w => match c w with
           | (Return a, w') => k a w'
           | (Raise e, w') => (Raise e, w')
           end.

Declare Scope py_scope.
Delimit Scope py_scope with py.
Notation "x <- c ;; k" := (bind c (fun x => k))
  (at level 61, c at next level, right associativity) : py_scope.
Notation "c ;; k" := (bind c (fun _ => k))
  (at level 61, right associativity) : py_scope.
Open Scope py_scope.

Definition print (line : string) : M unit :=
  fun w => (Return tt, mkWorld (files w) (console w ++ [line]) (clock w)).
Definition path_exists (p : string) : M bool :=
  fun w => (Return (match files w p with Some _ => true | None => false end), w).
Definition getsize (p : string) : M N :=
  fun w => match files w p with
           | Some n => (Return n, w)
           | None => (Raise (FileNotFoundError p), w)
           end.
Definition strftime_now : M string := fun w => (Return (clock w), w).
Definition when (b : bool) (c : M unit) : M unit := if b then c else ret tt.

(** [subprocess.run(cmd, capture_output=True, text=True)] returns one of
    these. The class defines neither [__bool__] nor [__len__], so an
    instance is always true. *)
Record CompletedProcess : Type := mkCompleted {
  returncode : Z;
  stdout : string;
  stderr : string
}.
Definition truthy_completed (_ : CompletedProcess) : bool := true.

(** A local variable that an earlier statement may have left unassigned;
    reading it then raises [UnboundLocalError]. *)
Definition load {A} (name : string) (v : option A) : M A :=
  match v with
  | Some a => ret a
  | None => raise (UnboundLocalError name)
  end.

(** [round(size / (1024 * 1024), 2)]: the quotient of a size below 2^53 by
    2^20 is exact in a float, and [round] takes the nearest two-digit
    decimal of that exact value, ties to the even digit. The field is kept
    as that decimal. *)
Definition round_half_even (n d : Z) : Z :=
  let q := (n / d)%Z in
  let r := (n mod d)%Z in
  if (2 * r <? d)%Z then q
  else if (d <? 2 * r)%Z then (q + 1)%Z
  else if Z.even q then q else (q + 1)%Z.

Definition size_mb_of (bytes : N) : Q :=
  Qred (round_half_even (100 * Z.of_N bytes) (1024 * 1024) # 100).

(** The value of an [Optional] that a truthiness test has let through. *)
Definition value (o : option string) : string :=
  match o with Some s => s | None => EmptyString end.
Definition items (o : option (list string)) : list string :=
  match o with Some l => l | None => [] end.

(** ** trace_record.py *)

(** The two dictionaries [record_trace] returns: ["success": True] with
    [output], [size_mb] and [template], or ["success": False] with [error]
    and [template]. *)
Inductive RecordingResult : Type :=
| Saved (output : string) (size_mb : Q) (template : string)
| Failed (error : string) (template : string).

Definition success (r : RecordingResult) : bool :=
  match r with Saved _ _ _ => true | Failed _ _ => false end.

(** The capture target the command line ends up asking for. *)
Inductive CaptureTarget : Type :=
| Attach (identifier : string)
| Launch (command : list string)
| AllProcesses.

Definition default_output (template timestamp : string) : string :=
  let template_slug := PyStr.replace " " "_" (PyStr.lower template) in
  template_slug ++ "_" ++ timestamp ++ ".trace".

Definition effective_output (template : string) (output : option string)
  : M string :=
  if truthy output then ret (value output)
  else timestamp <- strftime_now ;; ret (default_output template timestamp).

(** The [if attach: ... elif launch: ... elif all_processes: ... else: ...]
    chain of [record_trace]. *)
Definition target_flags (attach : option string) (launch : option (list string))
    (all_processes : bool) : list string :=
  if truthy attach then ["--attach"; value attach]
  else if truthy_list launch then ["--launch"; "--"] ++ items launch
  else if all_processes then ["--all-processes"]
  else ["--all-processes"].

Definition flags_of (t : CaptureTarget) : list string :=
  match t with
  | Attach a => ["--attach"; a]
  | Launch l => ["--launch"; "--"] ++ l
  | AllProcesses => ["--all-processes"]
  end.

Definition command_head (template output : string)
    (time_limit device : option string) : list string :=
  ["xcrun"; "xctrace"; "record"]
  ++ ["--template"; template]
  ++ ["--output"; output]
  ++ (if truthy device then ["--device"; value device] else [])
  ++ (if truthy time_limit then ["--time-limit"; value time_limit] else []).

Definition command_tail (quiet : bool) : list string :=
  ["--no-prompt"] ++ (if quiet then ["--quiet"] else []).

Definition build_command (template output : string)
    (attach : option string) (launch : option (list string))
    (all_processes : bool) (time_limit device : option string)
    (quiet : bool) : list string :=
  command_head template output time_limit device
  ++ target_flags attach launch all_processes
  ++ command_tail quiet.

Definition narrate (template output : string) (time_limit : option string)
  : M unit :=
  print ("Recording with template: " ++ template) ;;
  when (truthy time_limit) (print ("Time limit: " ++ value time_limit)) ;;
  print ("Output: " ++ output) ;;
  print "Recording... (Ctrl+C to stop)
".

Section TraceRecord.

Variable subprocess_run : list string -> M CompletedProcess.

(** [try: result = subprocess.run(...) except KeyboardInterrupt: pass]:
    the binding of the local [result] afterwards, [None] when the
    assignment never ran. Any other exception goes on. *)
Definition run_xctrace (cmd : list string) : M (option CompletedProcess) :=
  fun w => match subprocess_run cmd w with
           | (Return r, w') => (Return (Some r), w')
           | (Raise KeyboardInterrupt, w') => (Return None, w')
           | (Raise e, w') => (Raise e, w')
           end.

Definition record_trace (template : string) (output attach : option string)
    (launch : option (list string)) (all_processes : bool)
    (time_limit device : option string) (quiet : bool)
  : M RecordingResult :=
  output <- effective_output template output ;;
  let cmd := build_command template output attach launch all_processes
               time_limit device quiet in
  when (negb quiet) (narrate template output time_limit) ;;
  result <- run_xctrace cmd ;;
  found <- path_exists output ;;
  if found then
    size <- getsize output ;;
    ret (Saved output (size_mb_of size) template)
  else
    r <- load "result" result ;;
    let error :=
      if truthy_completed r then stderr r else "Recording interrupted" in
    ret (Failed error template).

End TraceRecord.

(** ** xml.etree.ElementTree, as far as the scripts use it *)

#[warnings="-register-all"]
Inductive Element : Type :=
| Elem (tag : string) (attrib : list (string * string)) (children : list Element).

Definition tag_of (e : Element) : string := match e with Elem t _ _ => t end.
Definition children_of (e : Element) : list Element :=
  match e with Elem _ _ cs => cs end.

(** [Element.get(key)]. *)
Definition get (e : Element) (key : string) : option string :=
  match e with
  | Elem _ attrib _ =>
      match find (fun kv => String.eqb (fst kv) key) attrib with
      | Some kv => Some (snd kv)
      | None => None
      end
  end.

(** [Element.iter()]: the element and its descendants in document order. *)
Fixpoint iter (e : Element) : list Element :=
  match e with
  | Elem _ _ cs => e :: flat_map iter cs
  end.

(** [elem.findall(".//tag")]: the proper descendants with that tag. *)
Definition findall (tag : string) (e : Element) : list Element :=
  filter (fun d => String.eqb (tag_of d) tag) (flat_map iter (children_of e)).

(** [ET.ParseError], with [str(e)] as its message. It is the one exception
    the scripts catch around [ET.fromstring]. *)
Inductive Parsed : Type :=
| Tree (root : Element)
| ParseError (msg : string).

(** ** trace_export.py *)

Record TableInfo : Type := mkTable {
  schema : option string;
  target : option string
}.

Record RunInfo : Type := mkRun {
  number : option string;
  tables : list TableInfo
}.

(** The dictionaries of [export_toc]; both carry ["success": True]. *)
Inductive TocResult : Type :=
| TocParsed (toc : list RunInfo) (raw_xml : string)
| TocRaw (raw : string) (parse_error : string).

Record XPathResult : Type := mkXPath {
  xpath_output : string;
  xpath_data : option string
}.

Definition parse_toc_xml (root : Element) : list RunInfo :=
  map (fun run =>
         mkRun (get run "number")
               (map (fun table =>
                       mkTable (get table "schema") (get table "target-pid"))
                    (findall "table" run)))
      (findall "run" root).

Definition export_failed (r : CompletedProcess) : Exception :=
  RuntimeError ("xctrace export failed: " ++ stderr r).

Section TraceExport.

Variable subprocess_run : list string -> M CompletedProcess.
Variable fromstring : string -> Parsed.

Definition export_toc (input_path : string) : M TocResult :=
  result <- subprocess_run
              ["xcrun"; "xctrace"; "export"; "--input"; input_path; "--toc"] ;;
  if negb (returncode result =? 0)%Z then raise (export_failed result)
  else
    match fromstring (stdout result) with
    | Tree root => ret (TocParsed (parse_toc_xml root) (stdout result))
    | ParseError e => ret (TocRaw (stdout result) e)
    end.

Definition export_xpath (input_path xpath : string)
    (output_path : option string) : M XPathResult :=
  let cmd := (["xcrun"; "xctrace"; "export"; "--input"; input_path;
               "--xpath"; xpath]
              ++ (if truthy output_path
                  then ["--output"; value output_path] else []))%list in
  result <- subprocess_run cmd ;;
  if negb (returncode result =? 0)%Z then raise (export_failed result)
  else
    ret (mkXPath (if truthy output_path then value output_path else "stdout")
                 (if negb (truthy output_path)
                  then Some (stdout result) else None)).

End TraceExport.

(** ** trace_analyze.py *)

Record TraceInfo : Type := mkInfo {
  info_path : string;
  info_size_mb : Q;
  info_runs : list (option string * list string);
  info_schemas : list string
}.

Record Analysis : Type := mkAnalysis {
  file : string;
  size_mb : Q;
  runs : nat;
  available_data : list string;
  insights : list string;
  next_steps : list string;
  all_schemas : option (list string);
  runs_detail : option (list (option string * list string))
}.

(** The truthy [schema] attributes of the tables below one run. *)
Definition run_tables (run : Element) : list string :=
  flat_map (fun table =>
              if truthy (get table "schema")
              then [value (get table "schema")] else [])
           (findall "table" run).

(** [if schema not in info["schemas"]: info["schemas"].append(schema)]. *)
Definition add_schema (schemas : list string) (s : string) : list string :=
  if existsb (String.eqb s) schemas then schemas else schemas ++ [s].

(** The body of the [try] in [get_trace_info], on the parsed tree. *)
Definition collect (root : Element) (info : TraceInfo) : TraceInfo :=
  fold_left
    (fun info run =>
       let tables := run_tables run in
       mkInfo (info_path info) (info_size_mb info)
              (info_runs info ++ [(get run "number", tables)])
              (fold_left add_schema tables (info_schemas info)))
    (findall "run" root) info.

(** The catalog, in the order the dictionary literal lists it. *)
Definition schema_insights : list (string * string) :=
  [ ("time-profile", "CPU profiling data available - look for hot functions");
    ("allocations", "Memory allocation data - check for excessive allocations");
    ("leaks", "Memory leak detection - review any leaked objects");
    ("hangs", "Hang/hitch data - identifies UI responsiveness issues");
    ("signpost", "Signpost intervals - custom performance markers");
    ("os-signpost", "OS-level signposts - system performance data");
    ("kdebug", "Kernel debug data - low-level system tracing");
    ("metal-gpu", "Metal GPU data - graphics performance");
    ("core-animation", "Core Animation commits - UI rendering") ].

(** The inner loop with its [break]: the insight of the first key that
    occurs in the lowered schema name. *)
Definition first_insight (schema : string) : option string :=
  let schema_lower := PyStr.lower schema in
  match find (fun kv => PyStr.contains (fst kv) schema_lower) schema_insights with
  | Some kv => Some (snd kv)
  | None => None
  end.

(** The outer loop: one [append] for every schema that has a match. *)
Definition matched_insights (schemas : list string) : list string :=
  flat_map (fun schema => match first_insight schema with
                          | Some insight => [insight]
                          | None => []
                          end) schemas.

Definition fallback_insight (schemas : list string) : string :=
  "Trace contains " ++ PyStr.of_nat (length schemas) ++ " data tables. "
  ++ "Open in Instruments.app for detailed analysis.".

Definition insights_for (schemas : list string) : list string :=
  match matched_insights schemas with
  | [] => [fallback_insight schemas]
  | found => found
  end.

Definition analysis_of (input_path : string) (verbose : bool)
    (info : TraceInfo) : Analysis :=
  mkAnalysis (info_path info) (info_size_mb info) (length (info_runs info))
    (info_schemas info) (insights_for (info_schemas info))
    [ "Open in Instruments: open '" ++ input_path ++ "'";
      "Export specific data: trace_export.py --xpath '<query>'" ]
    (if verbose then Some (info_schemas info) else None)
    (if verbose then Some (info_runs info) else None).

Section TraceAnalyze.

Variable subprocess_run : list string -> M CompletedProcess.
Variable fromstring : string -> Parsed.

Definition get_trace_info (input_path : string) : M TraceInfo :=
  found <- path_exists input_path ;;
  if negb found
  then raise (FileNotFoundError ("Trace not found: " ++ input_path))
  else
    size <- getsize input_path ;;
    result <- subprocess_run
                ["xcrun"; "xctrace"; "export"; "--input"; input_path; "--toc"] ;;
    let info := mkInfo input_path (size_mb_of size) [] [] in
    if (returncode result =? 0)%Z then
      match fromstring (stdout result) with
      | Tree root => ret (collect root info)
      | ParseError _ => ret info
      end
    else ret info.

Definition analyze_trace (input_path : string) (verbose : bool) : M Analysis :=
  info <- get_trace_info input_path ;;
  ret (analysis_of input_path verbose info).

End TraceAnalyze.

(** ** trace_attach.py *)

(** The dictionary [find_process] returns, as its items in order. *)
Definition ProcessInfo : Type := list (string * string).

Definition field (d : ProcessInfo) (key : string) : option string :=
  match find (fun kv => String.eqb (fst kv) key) d with
  | Some kv => Some (snd kv)
  | None => None
  end.

Definition newline : ascii := ascii_of_nat 10.

(** [find_process] from the [stdout] of a [pgrep -l] that exited zero. *)
Definition first_match (out : string) : option ProcessInfo :=
  let lines := PyStr.split newline (PyStr.strip out) in
  match lines with
  | [] => None
  | line0 :: _ =>
      if negb (PyStr.nonempty line0) then None
      else
        match PyStr.split_ws1 line0 with
        | pid :: name :: _ => Some [("pid", pid); ("name", name)]
        | _ => None
        end
  end.

Section TraceAttach.

Variable subprocess_run : list string -> M CompletedProcess.

Definition find_process (name : string) : M (option ProcessInfo) :=
  result <- subprocess_run ["pgrep"; "-l"; name] ;;
  if negb (returncode result =? 0)%Z then ret None
  else ret (first_match (stdout result)).

End TraceAttach.

(** ** Stand-ins for the external tools

    Small tools that honour the command-line contract of [xctrace] and
    [pgrep], for running the scripts on concrete inputs. *)

Fixpoint output_arg (cmd : list string) : option string :=
  match cmd with
  | [] => None
  | flag :: rest =>
      if String.eqb flag "--output"
      then match rest with p :: _ => Some p | [] => None end
      else output_arg rest
  end.

Definition write_file (p : string) (size : N) (w : World) : World :=
  mkWorld (fun q => if String.eqb q p then Some size else files w q)
          (console w) (clock w).

(** Records normally: a bundle of [size] bytes at the [--output] path. *)
Definition xctrace_writes (size : N) (cmd : list string) : M CompletedProcess :=
  fun w => match output_arg cmd with
           | Some p => (Return (mkCompleted 0 "" ""), write_file p size w)
           | None => (Return (mkCompleted 64 "" "missing --output"), w)
           end.

(** Ctrl+C arrives after the bundle has been flushed. *)
Definition xctrace_flushes_on_interrupt (size : N) (cmd : list string)
  : M CompletedProcess :=
  fun w => match output_arg cmd with
           | Some p => (Raise KeyboardInterrupt, write_file p size w)
           | None => (Raise KeyboardInterrupt, w)
           end.

(** Ctrl+C arrives before anything has been written. *)
Definition xctrace_interrupted (_ : list string) : M CompletedProcess :=
  raise KeyboardInterrupt.

(** A tool that touches nothing and exits with the given status and text. *)
Definition tool_exits (code : Z) (out err : string) (_ : list string)
  : M CompletedProcess :=
  ret (mkCompleted code out err).

(** Writes nothing and reports the command line it was given on its
    standard error. *)
Definition xctrace_echo (cmd : list string) : M CompletedProcess :=
  ret (mkCompleted 1 "" (String.concat " " cmd)).

Definition parser_rejects (msg : string) (_ : string) : Parsed := ParseError msg.
Definition parser_yields (root : Element) (_ : string) : Parsed := Tree root.

Definition empty_world : World :=
  mkWorld (fun _ => None) [] "20240102_030405".

Definition world_with (p : string) (size : N) : World :=
  write_file p size empty_world.

(** A table of contents with one run whose tables have the given schemas. *)
Definition toc_of_schemas (schemas : list string) : Element :=
  Elem "trace-toc" []
    [ Elem "run" [("number", "1")]
        [ Elem "data" []
            (map (fun s => Elem "table" [("schema", s)] []) schemas) ] ].

(** Whether a schema's first matching catalog entry has the given text. *)
Definition contributes (text schema : string) : bool :=
  match first_insight schema with
  | Some t => String.eqb t text
  | None => false
  end.

(** ** What [record_trace] does before and after the external call *)

Definition output_path_of (template : string) (output : option string)
    (w : World) : string :=
  if truthy output then value output else default_output template (clock w).

Definition command_of (template : string) (output attach : option string)
    (launch : option (list string)) (all_processes : bool)
    (time_limit device : option string) (quiet : bool) (w : World)
  : list string :=
  build_command template (output_path_of template output w) attach launch
    all_processes time_limit device quiet.

(** The machine at the moment [subprocess.run] is called: only the console
    has moved. *)
Definition world_at_launch (template : string) (output time_limit : option string)
    (quiet : bool) (w : World) : World :=
  snd (when (negb quiet)
         (narrate template (output_path_of template output w) time_limit) w).

(** ** The spec's reading of target selection

    Selection by priority Attach > Launch > AllProcesses, a parameter
    counting as supplied when Python takes it for true. *)
Definition select_by_priority (attach : option string)
    (launch : option (list string)) (all_processes : bool) : CaptureTarget :=
  if truthy attach then Attach (value attach)
  else if truthy_list launch then Launch (items launch)
  else AllProcesses.

(** The external call came back or was interrupted by Ctrl+C; any other
    exception of [subprocess.run] is not handled by [record_trace]. *)
Definition returned_or_interrupted (o : Outcome CompletedProcess) : Prop :=
  match o with
  | Return _ => True
  | Raise KeyboardInterrupt => True
  | Raise _ => False
  end.

(** How a call of [record_trace] ended, as the spec's two result tags. *)
Definition is_saved (o : Outcome RecordingResult) : bool :=
  match o with Return r => success r | Raise _ => false end.
Definition is_failed (o : Outcome RecordingResult) : bool :=
  match o with Return r => negb (success r) | Raise _ => false end.

(** A field of the resolver's result other than [pid] and [name]. *)
Definition has_extra_field (d : ProcessInfo) : Prop :=
  exists k v, In (k, v) d /\ k <> "pid" /\ k <> "name".

Definition cpu_text : string :=
  "CPU profiling data available - look for hot functions".
Definition signpost_text : string :=
  "Signpost intervals - custom performance markers".
Definition os_signpost_text : string :=
  "OS-level signposts - system performance data".

(** The command lines of the two export modes. *)
Definition toc_command (input_path : string) : list string :=
  ["xcrun"; "xctrace"; "export"; "--input"; input_path; "--toc"].

Definition xpath_command (input_path xpath : string)
    (output_path : option string) : list string :=
  (["xcrun"; "xctrace"; "export"; "--input"; input_path; "--xpath"; xpath]
   ++ (if truthy output_path then ["--output"; value output_path] else []))%list.

Definition no_schema_text : string :=
  "Trace contains 0 data tables. Open in Instruments.app for detailed analysis.".

(** ** The shape of a [pgrep -l] listing

    Each line of the listing is a process id, a gap and a process name. *)

Fixpoint all_chars (f : ascii -> bool) (s : string) : bool :=
  match s with
  | EmptyString => true
  | String c s' => f c && all_chars f s'
  end.

Definition visible (c : ascii) : bool := negb (PyStr.isspace c).
Definition not_newline (c : ascii) : bool := negb (Ascii.eqb c newline).

(** Only whitespace (or nothing at all). *)
Definition blank (s : string) : bool := all_chars PyStr.isspace s.
(** No line break inside. *)
Definition one_line (s : string) : bool := all_chars not_newline s.
(** A process id as printed: non-empty, no whitespace. *)
Definition is_pid_text (s : string) : bool :=
  PyStr.nonempty s && all_chars visible s.
(** What separates the id from the name: some whitespace within the line. *)
Definition is_gap (s : string) : bool :=
  PyStr.nonempty s && blank s && one_line s.
(** A process name as printed: starts with a visible character and stays
    on the line. *)
Definition is_name_text (s : string) : bool :=
  match s with
  | EmptyString => false
  | String c _ => visible c
  end && one_line s.

(** A listing with two matches, and the listing of its first line alone. *)
Definition pgrep_two_matches : string :=
  "123 foo" ++ String newline ("456 foobar" ++ String newline "").
Definition pgrep_one_match : string := "123 foo" ++ String newline "".

(** ** Further stand-ins and reference notions *)

(** [subprocess.run] cannot start the tool at all ([xcrun] is not there). *)
Definition tool_missing (_ : list string) : M CompletedProcess :=
  raise (FileNotFoundError "xcrun").

Definition not_space (c : ascii) : bool := negb (Ascii.eqb c " ").

(** The lines [record_trace] prints before the external call when it is
    not quiet. *)
Definition narration_lines (template out : string) (time_limit : option string)
  : list string :=
  let first := "Recording with template: " ++ template in
  let limit := "Time limit: " ++ value time_limit in
  let path := "Output: " ++ out in
  ([first] ++ (if truthy time_limit then [limit] else [])
   ++ [path; "Recording... (Ctrl+C to stop)
"])%list.

(** The schema names a parsed table of contents lists, in its order,
    tables without a (non-empty) schema left out. *)
Definition toc_schemas (toc : list RunInfo) : list string :=
  flat_map (fun run =>
              flat_map (fun t => if truthy (schema t)
                                 then [value (schema t)] else [])
                       (tables run))
           toc.

(** A list without its repetitions, every name at its first place. *)
Fixpoint first_seen (l : list string) : list string :=
  match l with
  | [] => []
  | x :: t => x :: filter (fun y => negb (String.eqb y x)) (first_seen t)
  end.

(** Listings for the resolver: a name with spaces in it, and a first line
    that has an id but no name. *)
Definition pgrep_name_with_spaces : string :=
  "412 Google Chrome Helper" ++ String newline "".
Definition pgrep_broken_first_line : string :=
  "1234" ++ String newline ("456 foo" ++ String newline "").

(** ** More of Python: [str.split()] and slices *)

Module PySeq.

(** [s.split()]: the maximal runs of non-whitespace characters. *)
Fixpoint split_words (s : string) : list string :=
  match s with
  | EmptyString => []
  | String c s' =>
      if PyStr.isspace c then split_words s'
      else
        match s' with
        | EmptyString => [String c EmptyString]
        | String d _ =>
            if PyStr.isspace d then String c EmptyString :: split_words s'
            else match split_words s' with
                 | w :: ws => String c w :: ws
                 | [] => [String c EmptyString]
                 end
        end
  end.

(** [l[:limit]] for any integer [limit]: the first [limit] items, or all
    but the last [-limit] when [limit] is negative. *)
Definition slice_to {A} (limit : Z) (l : list A) : list A :=
  if (0 <=? limit)%Z then firstn (Z.to_nat limit) l
  else firstn (length l - Z.to_nat (- limit)) l.

End PySeq.

(** ** trace_templates.py *)

(** [if line and not line.startswith("==") and line != ""]. *)
Definition keep_template_line (line : string) : bool :=
  PyStr.nonempty line && negb (PyStr.startswith "==" line)
  && negb (String.eqb line "").

(** The loop of [list_templates] over the tool's standard output. *)
Definition templates_of (out : string) : list string :=
  filter keep_template_line
    (map PyStr.strip (PyStr.split newline (PyStr.strip out))).

Section TraceTemplates.

Variable subprocess_run : list string -> M CompletedProcess.

Definition list_templates : M (list string) :=
  result <- subprocess_run ["xcrun"; "xctrace"; "list"; "templates"] ;;
  if negb (returncode result =? 0)%Z
  then raise (RuntimeError ("xctrace failed: " ++ stderr result))
  else ret (templates_of (stdout result)).

End TraceTemplates.

(** ** binary_inspect.py: symbols *)

(** One dictionary of [get_symbols], as its items in order. *)
Definition Symbol : Type := list (string * string).

(** The body of the loop of [get_symbols] for one line. *)
Definition symbols_of_line (line : string) : list Symbol :=
  match PySeq.split_words line with
  | [address; type; name] =>
      [[("address", address); ("type", type); ("name", name)]]
  | [type; name] => [[("type", type); ("name", name)]]
  | _ => []
  end.

Definition symbols_of (limit : Z) (out : string) : list Symbol :=
  flat_map symbols_of_line
    (PySeq.slice_to limit (PyStr.split newline (PyStr.strip out))).

Section BinaryInspect.

Variable subprocess_run : list string -> M CompletedProcess.

Definition get_symbols (binary_path : string) (limit : Z) : M (list Symbol) :=
  result <- subprocess_run ["xcrun"; "nm"; "-g"; binary_path] ;;
  result <- (if negb (returncode result =? 0)%Z
             then subprocess_run ["xcrun"; "nm"; binary_path]
             else ret result) ;;
  ret (symbols_of limit (stdout result)).

End BinaryInspect.

(** A word as [split()] gives it: non-empty, no whitespace inside. *)
Definition is_word (s : string) : bool :=
  PyStr.nonempty s && all_chars visible s.

(** A symbol table as [nm] prints it, for running [get_symbols]. *)
Definition nm_listing : string :=
  "0000000100003f20 T _main" ++ String newline
  ("                 U _printf" ++ String newline
  ("0000000100008000 D _counter extra" ++ String newline "")).

(** An [nm] whose [-g] run fails and whose plain run answers. *)
Definition nm_needs_plain_run (cmd : list string) : M CompletedProcess :=
  if existsb (String.eqb "-g") cmd
  then ret (mkCompleted 1 "" "nm: error")
  else ret (mkCompleted 0 nm_listing "").

(** A template listing as [xctrace list templates] prints it. *)
Definition template_listing : string :=
  "== Standard Templates ==" ++ String newline
  ("Activity Monitor" ++ String newline
  ("  Time Profiler  " ++ String newline
  ("" ++ String newline
  ("== Custom Templates ==" ++ String newline
  ("My Template" ++ String newline ""))))).

(** ** trace_compare.py *)

(** [round(x, 2)] of a float whose exact value is [x]: the nearest
    two-digit decimal, ties to the even digit. *)
Definition round2 (x : Q) : Q :=
  Qred (round_half_even (100 * Qnum x) (Zpos (Qden x)) # 100).

(** [os.path.getsize(path) / (1024 * 1024)]: exact in a float for sizes
    below 2^53 bytes, and kept as that exact value. *)
Definition get_trace_size (path : string) : M Q :=
  found <- path_exists path ;;
  if negb found then raise (FileNotFoundError ("Trace not found: " ++ path))
  else size <- getsize path ;; ret (Qmake (Z.of_N size) 1048576).

(** The dictionary of [compare_traces]; [baseline] and [current] are the
    inner dictionaries with [path] and [size_mb]. *)
Record Comparison : Type := mkComparison {
  baseline : string * Q;
  current : string * Q;
  size_diff_mb : Q;
  size_diff_percent : Q;
  recommendation : string;
  manual_steps : list string
}.

Section TraceCompare.

(** [round(((current_size - baseline_size) / baseline_size) * 100, 1)]:
    a float division that rounds, taken as given. Its arguments are the
    baseline and the current size. *)
Variable percent_change : Q -> Q -> Q.

Definition compare_traces (baseline_path current_path : string)
  : M Comparison :=
  baseline_size <- get_trace_size baseline_path ;;
  current_size <- get_trace_size current_path ;;
  ret (mkComparison
         (baseline_path, round2 baseline_size)
         (current_path, round2 current_size)
         (round2 (current_size - baseline_size)%Q)
         (if negb (Qle_bool baseline_size 0)
          then percent_change baseline_size current_size else 0%Q)
         ("For detailed comparison, open both traces in Instruments.app side-by-side. "
          ++ "Use File > Open to load each trace, then compare the same time intervals.")
         [ "1. Open baseline: open '" ++ baseline_path ++ "'";
           "2. Open current: open '" ++ current_path ++ "'";
           "3. In Instruments, select matching time ranges";
           "4. Compare call trees, allocations, or other metrics" ]).

End TraceCompare.

(** The percentage in exact arithmetic, rounded to one decimal: a stand-in
    for the float computation when running [compare_traces]. *)
Definition percent_exact (baseline_size current_size : Q) : Q :=
  let p := ((current_size - baseline_size) / baseline_size * 100)%Q in
  Qred (round_half_even (10 * Qnum p) (Zpos (Qden p)) # 10).

(** Two traces on disk, of 4000 and 9000 bytes. *)
Definition two_traces : World :=
  write_file "after.trace" 9000 (write_file "before.trace" 4000 empty_world).

(** ** binary_inspect.py: linked libraries *)

Module PySplit.

(** [s.split(sep)] for a non-empty separator of any length: [skip] counts
    the characters of a separator just found that are still to be passed
    over. *)
Fixpoint split_from (sep : string) (skip : nat) (s : string) : list string :=
  match s with
  | EmptyString => [EmptyString]
  | String c s' =>
      match skip with
      | S k => split_from sep k s'
      | O =>
          if PyStr.startswith sep s
          then EmptyString :: split_from sep (String.length sep - 1) s'
          else match split_from sep 0 s' with
               | w :: ws => String c w :: ws
               | [] => [String c EmptyString]
               end
      end
  end.

Definition split (sep s : string) : list string := split_from sep 0 s.

End PySplit.

(** The body of the loop of [get_libraries] for one line; the list that
    [split] returns is never empty, so its item 0 is always there. *)
Definition library_of_line (line : string) : list string :=
  let line := PyStr.strip line in
  if PyStr.nonempty line then
    let lib := PyStr.strip (hd EmptyString (PySplit.split " (" line)) in
    if PyStr.nonempty lib then [lib] else []
  else [].

Definition libraries_of (out : string) : list string :=
  flat_map library_of_line (tl (PyStr.split newline (PyStr.strip out))).

Section BinaryLibraries.

Variable subprocess_run : list string -> M CompletedProcess.

Definition get_libraries (binary_path : string) : M (list string) :=
  result <- subprocess_run ["xcrun"; "otool"; "-L"; binary_path] ;;
  if negb (returncode result =? 0)%Z
  then raise (RuntimeError ("otool failed: " ++ stderr result))
  else ret (libraries_of (stdout result)).

End BinaryLibraries.

Definition tab : ascii := ascii_of_nat 9.

(** The answer of [otool -L] for a small binary. *)
Definition otool_listing : string :=
  "/bin/app:" ++ String newline
  (String tab "/usr/lib/libSystem.B.dylib (compatibility version 1.0.0, current version 1319.0.0)"
   ++ String newline
  (String tab "@rpath/My Kit.framework/My Kit (compatibility version 1.0.0)"
   ++ String newline "")).

(** * Properties *)

(** ** The computation monad *)

Lemma bind_return {A B} (c : M A) (k : A -> M B) w a w' :
  c w = (Return a, w') -> bind c k w = k a w'.
Proof. intros H. unfold bind. rewrite H. reflexivity. Qed.

Lemma bind_raise {A B} (c : M A) (k : A -> M B) w e w' :
  c w = (Raise e, w') -> bind c k w = (Raise e, w').
Proof. intros H. unfold bind. rewrite H. reflexivity. Qed.

(** ** Recorder *)

Lemma narration_returns template out time_limit quiet w :
  when (negb quiet) (narrate template out time_limit) w
  = (Return tt, snd (when (negb quiet) (narrate template out time_limit) w)).
Proof.
  destruct quiet; simpl; [reflexivity|].
  unfold narrate, bind, print, when.
  destruct (truthy time_limit); reflexivity.
Qed.

Lemma narration_keeps_files template out time_limit quiet w :
  files (snd (when (negb quiet) (narrate template out time_limit) w)) = files w.
Proof.
  destruct quiet; simpl; [reflexivity|].
  unfold narrate, bind, print, when.
  destruct (truthy time_limit); reflexivity.
Qed.

Lemma effective_output_returns template output w :
  effective_output template output w
  = (Return (output_path_of template output w), w).
Proof.
  unfold effective_output, output_path_of.
  destruct (truthy output); reflexivity.
Qed.

Section RecorderFacts.

Variable subprocess_run : list string -> M CompletedProcess.
Variables (template : string) (output attach : option string)
          (launch : option (list string)) (all_processes : bool)
          (time_limit device : option string) (quiet : bool).
Variable w : World.

(** [record_trace] in one step: everything hangs on how the external call
    ends and on whether the output path exists afterwards. *)
Lemma record_trace_cases :
  record_trace subprocess_run template output attach launch all_processes
    time_limit device quiet w
  = match subprocess_run
            (command_of template output attach launch all_processes
               time_limit device quiet w)
            (world_at_launch template output time_limit quiet w) with
    | (Return r, w2) =>
        match files w2 (output_path_of template output w) with
        | Some n => (Return (Saved (output_path_of template output w)
                               (size_mb_of n) template), w2)
        | None => (Return (Failed (stderr r) template), w2)
        end
    | (Raise KeyboardInterrupt, w2) =>
        match files w2 (output_path_of template output w) with
        | Some n => (Return (Saved (output_path_of template output w)
                               (size_mb_of n) template), w2)
        | None => (Raise (UnboundLocalError "result"), w2)
        end
    | (Raise e, w2) => (Raise e, w2)
    end.
Proof.
  unfold record_trace.
  rewrite (bind_return _ _ _ _ _ (effective_output_returns template output w)).
  rewrite (bind_return _ _ _ _ _
             (narration_returns template _ time_limit quiet w)).
  unfold command_of, world_at_launch.
  set (p := output_path_of template output w).
  unfold bind at 1. unfold run_xctrace.
  destruct (subprocess_run _ _) as [[r|e] w2].
  - unfold bind, path_exists, getsize, load, ret.
    destruct (files w2 p) eqn:E; cbn; rewrite ?E; reflexivity.
  - destruct e; try reflexivity.
    unfold bind, path_exists, getsize, load, ret, raise.
    destruct (files w2 p) eqn:E; cbn; rewrite ?E; reflexivity.
Qed.

End RecorderFacts.

Section RecorderClaims.

Variable subprocess_run : list string -> M CompletedProcess.
Variables (template : string) (output attach : option string)
          (launch : option (list string)) (all_processes : bool)
          (time_limit device : option string) (quiet : bool).
Variables (w w2 : World) (o : Outcome CompletedProcess).

Hypothesis external_call :
  subprocess_run
    (command_of template output attach launch all_processes
       time_limit device quiet w)
    (world_at_launch template output time_limit quiet w) = (o, w2).

(** Whatever way the call ends, an output path that exists gives [Saved]
    with the size in MiB rounded to two decimals. *)
Lemma record_saved_when_output_exists n :
  returned_or_interrupted o ->
  files w2 (output_path_of template output w) = Some n ->
  record_trace subprocess_run template output attach launch all_processes
    time_limit device quiet w
  = (Return (Saved (output_path_of template output w) (size_mb_of n) template),
     w2).
Proof.
  intros Ho Hn. rewrite record_trace_cases, external_call.
  destruct o as [r|e]; [|destruct e; try contradiction]; rewrite Hn; reflexivity.
Qed.

(** A call that came back without the output path gives [Failed] with the
    standard-error text, whatever the exit status. *)
Lemma record_failed_when_returned_without_output r :
  o = Return r ->
  files w2 (output_path_of template output w) = None ->
  record_trace subprocess_run template output attach launch all_processes
    time_limit device quiet w
  = (Return (Failed (stderr r) template), w2).
Proof.
  intros -> Hn. rewrite record_trace_cases, external_call, Hn. reflexivity.
Qed.

(** An interrupted call without the output path reads the local [result]
    that was never assigned. *)
Lemma record_raises_when_interrupted_without_output :
  o = Raise KeyboardInterrupt ->
  files w2 (output_path_of template output w) = None ->
  record_trace subprocess_run template output attach launch all_processes
    time_limit device quiet w
  = (Raise (UnboundLocalError "result"), w2).
Proof.
  intros -> Hn. rewrite record_trace_cases, external_call, Hn. reflexivity.
Qed.

(** C1. The classification of a recording whose external call came back
    or was interrupted: the result is [Saved] exactly when the output
    path exists afterwards, also after an interrupt; a missing path after
    a call that came back is [Failed] for every exit status; but a missing
    path after an interrupted call is no [Failed] result: the function
    raises [UnboundLocalError], so "Failed whenever the path is missing"
    does not hold for every invocation. *)
Theorem record_trace_classification :
  returned_or_interrupted o ->
  let result := fst (record_trace subprocess_run template output attach
                       launch all_processes time_limit device quiet w) in
  let out := output_path_of template output w in
  (is_saved result = true <-> files w2 out <> None)
  /\ (forall n, files w2 out = Some n ->
                result = Return (Saved out (size_mb_of n) template))
  /\ (forall r, o = Return r -> files w2 out = None ->
                result = Return (Failed (stderr r) template))
  /\ (o = Raise KeyboardInterrupt -> files w2 out = None ->
      result = Raise (UnboundLocalError "result")
      /\ is_failed result = false).
Proof.
  intros Ho result out. subst result out.
  split; [|split; [|split]].
  - rewrite record_trace_cases, external_call.
    destruct o as [r|e]; [|destruct e; try contradiction];
      destruct (files w2 (output_path_of template output w));
      simpl; split; congruence.
  - intros n Hn.
    rewrite (record_saved_when_output_exists n Ho Hn). reflexivity.
  - intros r Hr Hnone.
    rewrite (record_failed_when_returned_without_output r Hr Hnone).
    reflexivity.
  - intros Hi Hnone.
    rewrite (record_raises_when_interrupted_without_output Hi Hnone).
    split; reflexivity.
Qed.

(** C2. When the external call is interrupted before a result object
    exists and the output path is missing afterwards, [record_trace]
    does not return a [Failed] result with the "Recording interrupted"
    text: it raises [UnboundLocalError] for the local [result]. *)
Theorem record_interrupted_missing_raises :
  o = Raise KeyboardInterrupt ->
  files w2 (output_path_of template output w) = None ->
  record_trace subprocess_run template output attach launch all_processes
    time_limit device quiet w
  = (Raise (UnboundLocalError "result"), w2)
  /\ fst (record_trace subprocess_run template output attach launch
            all_processes time_limit device quiet w)
     <> Return (Failed "Recording interrupted" template).
Proof.
  intros Hi Hnone.
  rewrite (record_raises_when_interrupted_without_output Hi Hnone).
  split; [reflexivity | discriminate].
Qed.

(** C3, as amended. A recording whose output path exists afterwards is
    [Saved] with [size_mb]: the file's size in MiB rounded to two
    decimals, not its size in bytes; a file of 2 MiB is reported as 2. *)
Theorem record_saved_reports_size_mb n :
  returned_or_interrupted o ->
  files w2 (output_path_of template output w) = Some n ->
  record_trace subprocess_run template output attach launch all_processes
    time_limit device quiet w
  = (Return (Saved (output_path_of template output w) (size_mb_of n) template),
     w2)
  /\ size_mb_of (2 * 1024 * 1024) = 2%Q.
Proof.
  intros Ho Hn. split; [|reflexivity].
  exact (record_saved_when_output_exists n Ho Hn).
Qed.

End RecorderClaims.

(** C1 at work: Ctrl+C before anything is written, with an explicit output
    path; the path is missing afterwards and no [Failed] comes back. *)
Lemma record_trace_classification_witness :
  fst (record_trace xctrace_interrupted "Time Profiler" (Some "out.trace")
         None None false (Some "5s") None true empty_world)
  = Raise (UnboundLocalError "result")
  /\ is_failed
       (fst (record_trace xctrace_interrupted "Time Profiler" (Some "out.trace")
               None None false (Some "5s") None true empty_world))
     = false.
Proof.
  exact (proj2 (proj2 (proj2
           (record_trace_classification xctrace_interrupted "Time Profiler"
              (Some "out.trace") None None false (Some "5s") None true
              empty_world empty_world (Raise KeyboardInterrupt) eq_refl I)))
           eq_refl eq_refl).
Defined.

(** An interrupt after the bundle has been flushed is [Saved], and a clean
    exit that left no bundle is [Failed] with the tool's message. *)
Lemma record_trace_interrupt_and_exit_examples :
  fst (record_trace (xctrace_flushes_on_interrupt 1048576) "Leaks"
         (Some "out.trace") None None false None None true empty_world)
  = Return (Saved "out.trace" 1%Q "Leaks")
  /\ fst (record_trace (tool_exits 0 "" "no device") "Leaks" (Some "out.trace")
            None None false None None true empty_world)
     = Return (Failed "no device" "Leaks").
Proof. split; reflexivity. Qed.

(** C2 at work: attaching to a process with a synthesized output path and
    narration on; Ctrl+C arrives before [subprocess.run] returns. *)
Lemma record_interrupted_missing_raises_witness :
  record_trace xctrace_interrupted "Allocations" None (Some "1234") None false
    None None false empty_world
  = (Raise (UnboundLocalError "result"),
     world_at_launch "Allocations" None None false empty_world)
  /\ fst (record_trace xctrace_interrupted "Allocations" None (Some "1234")
            None false None None false empty_world)
     <> Return (Failed "Recording interrupted" "Allocations").
Proof.
  exact (record_interrupted_missing_raises xctrace_interrupted "Allocations"
           None (Some "1234") None false None None false empty_world
           (world_at_launch "Allocations" None None false empty_world)
           (Raise KeyboardInterrupt) eq_refl eq_refl eq_refl).
Defined.

(** C3 at work: the end-to-end scenario. Template "Time Profiler", all
    processes, time limit "5s", and a tool that writes 2 MiB at the
    synthesized path: the result is [Saved] with [size_mb] 2. *)
Lemma record_saved_reports_size_mb_witness :
  record_trace (xctrace_writes (2 * 1024 * 1024)) "Time Profiler" None None None
    true (Some "5s") None true empty_world
  = (Return (Saved "time_profiler_20240102_030405.trace" 2%Q "Time Profiler"),
     world_with "time_profiler_20240102_030405.trace" (2 * 1024 * 1024))
  /\ size_mb_of (2 * 1024 * 1024) = 2%Q.
Proof.
  exact (record_saved_reports_size_mb (xctrace_writes (2 * 1024 * 1024))
           "Time Profiler" None None None true (Some "5s") None true
           empty_world
           (world_with "time_profiler_20240102_030405.trace" (2 * 1024 * 1024))
           (Return (mkCompleted 0 "" "")) eq_refl (2 * 1024 * 1024)%N I eq_refl).
Defined.

(** C3 as stated fails: in the end-to-end scenario the file at the
    synthesized path has 2 * 1024 * 1024 bytes, the result is [Saved], and
    its size field is 2, not 2 * 1024 * 1024. *)
Lemma record_size_field_is_not_bytes :
  exists s w2,
    record_trace (xctrace_writes (2 * 1024 * 1024)) "Time Profiler" None None
      None true (Some "5s") None true empty_world
    = (Return (Saved "time_profiler_20240102_030405.trace" s "Time Profiler"), w2)
    /\ files w2 "time_profiler_20240102_030405.trace" = Some (2 * 1024 * 1024)%N
    /\ ~ (s == 2 * 1024 * 1024)%Q.
Proof.
  exists 2%Q, (world_with "time_profiler_20240102_030405.trace" (2 * 1024 * 1024)).
  split; [reflexivity | split; [reflexivity |]].
  intros H. vm_compute in H. discriminate H.
Qed.

(** The size field forgets the byte count: files of different sizes get
    the same [size_mb]. *)
Lemma size_mb_forgets_bytes :
  size_mb_of 0 = size_mb_of 5000 /\ size_mb_of 5243 = size_mb_of 15728.
Proof. split; reflexivity. Qed.

(** Ties go to the even digit, as Python's [round] does on exact values:
    0.125 MiB is reported as 0.12 and 0.375 MiB as 0.38. *)
Lemma size_mb_rounds_half_even :
  size_mb_of 131072 = (3 # 25)%Q /\ size_mb_of 393216 = (19 # 50)%Q.
Proof. split; reflexivity. Qed.

(** C4. The target flags of the external command follow the priority
    Attach > Launch > AllProcesses, a parameter counting as supplied when
    Python takes it for true (a non-empty string, a non-empty list): the
    command is the fixed head, the flags of the selected target and the
    fixed tail; a supplied attach identifier wins over any launch command;
    a launch command wins when no attach identifier is given; with nothing
    supplied the command asks for all processes. The command is built by a
    total function: no selection raises. *)
Theorem target_selection_priority
    (template out : string) (time_limit device : option string) (quiet : bool) :
  (forall attach launch all_processes,
      build_command template out attach launch all_processes
        time_limit device quiet
      = (command_head template out time_limit device
         ++ flags_of (select_by_priority attach launch all_processes)
         ++ command_tail quiet)%list)
  /\ (forall c a launch all_processes,
         build_command template out (Some (String c a)) launch all_processes
           time_limit device quiet
         = (command_head template out time_limit device
            ++ ["--attach"; String c a] ++ command_tail quiet)%list)
  /\ (forall x l all_processes,
         build_command template out None (Some (x :: l)) all_processes
           time_limit device quiet
         = (command_head template out time_limit device
            ++ ["--launch"; "--"] ++ (x :: l) ++ command_tail quiet)%list)
  /\ (forall all_processes,
         build_command template out None None all_processes
           time_limit device quiet
         = (command_head template out time_limit device
            ++ ["--all-processes"] ++ command_tail quiet)%list).
Proof.
  split; [|split; [|split]].
  - intros attach launch all_processes.
    unfold build_command, target_flags, select_by_priority.
    destruct (truthy attach); [reflexivity|].
    destruct (truthy_list launch); [reflexivity|].
    destruct all_processes; reflexivity.
  - intros c a launch all_processes. reflexivity.
  - intros x l all_processes. unfold build_command, target_flags. simpl.
    now rewrite <- !app_assoc.
  - intros [|]; reflexivity.
Qed.

(** The command [record_trace] really hands to the external tool, read
    back from a tool that echoes it: attach wins over launch, and nothing
    supplied means all processes. *)
Lemma record_trace_command_examples :
  fst (record_trace xctrace_echo "T" (Some "o.trace") (Some "42")
         (Some ["/bin/app"; "-v"]) true None None true empty_world)
  = Return (Failed
      "xcrun xctrace record --template T --output o.trace --attach 42 --no-prompt --quiet"
      "T")
  /\ fst (record_trace xctrace_echo "T" (Some "o.trace") None
            (Some ["/bin/app"; "-v"]) true None None true empty_world)
     = Return (Failed
      "xcrun xctrace record --template T --output o.trace --launch -- /bin/app -v --no-prompt --quiet"
      "T")
  /\ fst (record_trace xctrace_echo "T" (Some "o.trace") None None false
            None None true empty_world)
     = Return (Failed
      "xcrun xctrace record --template T --output o.trace --all-processes --no-prompt --quiet"
      "T").
Proof. split; [|split]; reflexivity. Qed.

(** ** TOC extractor *)

Section ExportClaims.

Variable subprocess_run : list string -> M CompletedProcess.
Variable fromstring : string -> Parsed.
Variables (input_path : string) (w w' : World) (r : CompletedProcess).

Lemma export_toc_cases :
  subprocess_run (toc_command input_path) w = (Return r, w') ->
  export_toc subprocess_run fromstring input_path w
  = if (returncode r =? 0)%Z then
      match fromstring (stdout r) with
      | Tree root => (Return (TocParsed (parse_toc_xml root) (stdout r)), w')
      | ParseError e => (Return (TocRaw (stdout r) e), w')
      end
    else (Raise (export_failed r), w').
Proof.
  intros Hrun. unfold export_toc.
  rewrite (bind_return _ _ _ _ _ Hrun).
  destruct (returncode r =? 0)%Z; simpl; [|reflexivity].
  destruct (fromstring (stdout r)); reflexivity.
Qed.

Lemma export_xpath_cases xpath output_path :
  subprocess_run (xpath_command input_path xpath output_path) w
  = (Return r, w') ->
  export_xpath subprocess_run input_path xpath output_path w
  = if (returncode r =? 0)%Z then
      (Return (mkXPath
                 (if truthy output_path then value output_path else "stdout")
                 (if truthy output_path then None else Some (stdout r))), w')
    else (Raise (export_failed r), w').
Proof.
  intros Hrun. unfold export_xpath.
  rewrite (bind_return _ _ _ _ _ Hrun).
  destruct (returncode r =? 0)%Z; simpl; [|reflexivity].
  destruct (truthy output_path); reflexivity.
Qed.

(** C5. When the export exits zero and its standard output is not
    well-formed XML, [export_toc] returns: the result carries the raw
    output text unchanged and the parser's error text as its note. The
    note is [str(e)] of the library's [ParseError], so it is non-empty
    as far as the library's messages are. *)
Theorem export_toc_malformed_xml :
  (forall s e, fromstring s = ParseError e -> e <> "") ->
  subprocess_run (toc_command input_path) w = (Return r, w') ->
  returncode r = 0%Z ->
  (forall root, fromstring (stdout r) <> Tree root) ->
  exists note,
    export_toc subprocess_run fromstring input_path w
    = (Return (TocRaw (stdout r) note), w')
    /\ note <> "".
Proof.
  intros Hmsg Hrun Hzero Hbad.
  rewrite (export_toc_cases Hrun), Hzero. simpl.
  destruct (fromstring (stdout r)) as [root|e] eqn:E.
  - exfalso. exact (Hbad root eq_refl).
  - exists e. split; [reflexivity | exact (Hmsg _ _ E)].
Qed.

End ExportClaims.

(** C5 at work: the export prints text that is no XML; the raw text comes
    back with the parser's message. *)
Lemma export_toc_malformed_xml_witness :
  exists note,
    export_toc (tool_exits 0 "not <xml" "")
      (parser_rejects "unclosed token: line 1, column 4") "rec.trace" empty_world
    = (Return (TocRaw "not <xml" note), empty_world)
    /\ note <> "".
Proof.
  apply (export_toc_malformed_xml (tool_exits 0 "not <xml" "")
           (parser_rejects "unclosed token: line 1, column 4")
           "rec.trace" empty_world empty_world (mkCompleted 0 "not <xml" "")).
  - intros s e H. unfold parser_rejects in H. injection H as <-. discriminate.
  - reflexivity.
  - reflexivity.
  - intros root. discriminate.
Defined.

(** ** Analysis *)

Section AnalyzeFacts.

Variable subprocess_run : list string -> M CompletedProcess.
Variable fromstring : string -> Parsed.
Variables (input_path : string) (w w' : World) (r : CompletedProcess) (n : N).

Hypothesis trace_exists : files w input_path = Some n.
Hypothesis export_returns :
  subprocess_run (toc_command input_path) w = (Return r, w').

Lemma get_trace_info_cases :
  get_trace_info subprocess_run fromstring input_path w
  = (Return
       (if (returncode r =? 0)%Z then
          match fromstring (stdout r) with
          | Tree root =>
              collect root (mkInfo input_path (size_mb_of n) [] [])
          | ParseError _ => mkInfo input_path (size_mb_of n) [] []
          end
        else mkInfo input_path (size_mb_of n) [] []), w').
Proof.
  unfold get_trace_info, bind at 1, path_exists.
  rewrite trace_exists. cbn [negb].
  unfold bind at 1, getsize. rewrite trace_exists.
  rewrite (bind_return _ _ _ _ _ export_returns).
  destruct (returncode r =? 0)%Z; [|reflexivity].
  destruct (fromstring (stdout r)); reflexivity.
Qed.

Lemma analyze_trace_cases verbose :
  analyze_trace subprocess_run fromstring input_path verbose w
  = (Return
       (analysis_of input_path verbose
          (if (returncode r =? 0)%Z then
             match fromstring (stdout r) with
             | Tree root =>
                 collect root (mkInfo input_path (size_mb_of n) [] [])
             | ParseError _ => mkInfo input_path (size_mb_of n) [] []
             end
           else mkInfo input_path (size_mb_of n) [] [])), w').
Proof.
  unfold analyze_trace.
  rewrite (bind_return _ _ _ _ _ get_trace_info_cases). reflexivity.
Qed.

End AnalyzeFacts.

(** A missing trace is the failure [get_trace_info] does raise. *)
Lemma get_trace_info_missing subprocess_run fromstring input_path w :
  files w input_path = None ->
  get_trace_info subprocess_run fromstring input_path w
  = (Raise (FileNotFoundError ("Trace not found: " ++ input_path)), w).
Proof.
  intros H. unfold get_trace_info, bind, path_exists. rewrite H. reflexivity.
Qed.

(** Every way [analyze_trace] returns gives the insights of its schema
    list. *)
Lemma analyze_trace_insights subprocess_run fromstring input_path verbose w a w' :
  analyze_trace subprocess_run fromstring input_path verbose w = (Return a, w') ->
  insights a = insights_for (available_data a).
Proof.
  unfold analyze_trace, bind.
  destruct (get_trace_info subprocess_run fromstring input_path w) as [[info|e] w1];
    [|discriminate].
  unfold ret. intros H. injection H as <- _. reflexivity.
Qed.

(** C6, as amended. A nonzero exit of the export tool makes the two export
    operations raise [RuntimeError] with the text "xctrace export failed: "
    followed by the tool's standard error; the analysis of an existing
    trace does not raise on it: it returns a report with no runs, no
    schemas and the single fallback insight. *)
Theorem export_raises_analysis_absorbs
    (subprocess_run : list string -> M CompletedProcess)
    (fromstring : string -> Parsed)
    (input_path : string) (w w' : World) (r : CompletedProcess) :
  returncode r <> 0%Z ->
  (subprocess_run (toc_command input_path) w = (Return r, w') ->
   export_toc subprocess_run fromstring input_path w
   = (Raise (RuntimeError ("xctrace export failed: " ++ stderr r)), w'))
  /\ (forall xpath output_path,
         subprocess_run (xpath_command input_path xpath output_path) w
         = (Return r, w') ->
         export_xpath subprocess_run input_path xpath output_path w
         = (Raise (RuntimeError ("xctrace export failed: " ++ stderr r)), w'))
  /\ (forall n verbose,
         files w input_path = Some n ->
         subprocess_run (toc_command input_path) w = (Return r, w') ->
         exists a,
           analyze_trace subprocess_run fromstring input_path verbose w
           = (Return a, w')
           /\ runs a = 0 /\ available_data a = []
           /\ insights a = [no_schema_text]).
Proof.
  intros Hfail. apply Z.eqb_neq in Hfail.
  split; [|split].
  - intros Hrun. rewrite (export_toc_cases _ fromstring _ _ _ _ Hrun), Hfail.
    reflexivity.
  - intros xpath output_path Hrun.
    rewrite (export_xpath_cases _ _ _ _ _ _ _ Hrun), Hfail. reflexivity.
  - intros n verbose Hn Hrun.
    rewrite (analyze_trace_cases _ fromstring _ _ _ _ _ Hn Hrun verbose), Hfail.
    eexists. split; [reflexivity|]. repeat split.
Qed.

(** C6 at work: the export tool exits 1 with "boom" on its standard error. *)
Lemma export_raises_analysis_absorbs_witness :
  export_toc (tool_exits 1 "" "boom") (parser_rejects "no element found")
    "rec.trace" (world_with "rec.trace" 4096)
  = (Raise (RuntimeError "xctrace export failed: boom"),
     world_with "rec.trace" 4096)
  /\ export_xpath (tool_exits 1 "" "boom") "rec.trace" "/trace-toc" None
       (world_with "rec.trace" 4096)
     = (Raise (RuntimeError "xctrace export failed: boom"),
        world_with "rec.trace" 4096)
  /\ exists a,
       analyze_trace (tool_exits 1 "" "boom") (parser_rejects "no element found")
         "rec.trace" false (world_with "rec.trace" 4096)
       = (Return a, world_with "rec.trace" 4096)
       /\ runs a = 0 /\ available_data a = [] /\ insights a = [no_schema_text].
Proof.
  pose proof (export_raises_analysis_absorbs (tool_exits 1 "" "boom")
                (parser_rejects "no element found") "rec.trace"
                (world_with "rec.trace" 4096) (world_with "rec.trace" 4096)
                (mkCompleted 1 "" "boom")) as H.
  destruct H as [Htoc [Hxpath Hanalyze]]; [discriminate|].
  split; [exact (Htoc eq_refl)|].
  split; [exact (Hxpath "/trace-toc" None eq_refl)|].
  exact (Hanalyze 4096%N false eq_refl eq_refl).
Defined.

(** C6 as stated fails for analysis: with the export tool exiting 1,
    [analyze_trace] on an existing trace raises nothing and returns a
    report whose only insight is the fallback text. *)
Lemma analysis_absorbs_export_failure :
  returncode (mkCompleted 1 "" "boom") = 1%Z
  /\ analyze_trace (tool_exits 1 "" "boom") (parser_rejects "no element found")
       "rec.trace" false (world_with "rec.trace" 4096)
     = (Return
          (mkAnalysis "rec.trace" (size_mb_of 4096) 0 [] [no_schema_text]
             [ "Open in Instruments: open 'rec.trace'";
               "Export specific data: trace_export.py --xpath '<query>'" ]
             None None),
        world_with "rec.trace" 4096).
Proof. split; reflexivity. Qed.

(** ** Insight engine *)

Lemma find_all_false {A} (f : A -> bool) (l : list A) :
  (forall x, In x l -> f x = false) -> find f l = None.
Proof.
  induction l as [|x l IH]; intros H; [reflexivity|].
  simpl. rewrite (H x (or_introl eq_refl)).
  apply IH. intros y Hy. apply H. right. exact Hy.
Qed.

Lemma contains_cons key c s :
  PyStr.contains key s = true -> PyStr.contains key (String c s) = true.
Proof. intros H. simpl. rewrite H. apply orb_true_r. Qed.

Lemma startswith_contains key s :
  PyStr.startswith key s = true -> PyStr.contains key s = true.
Proof. intros H. destruct s; simpl; rewrite H; reflexivity. Qed.

Lemma startswith_append_contains p key s :
  PyStr.startswith (p ++ key) s = true -> PyStr.contains key s = true.
Proof.
  revert s. induction p as [|a p IH]; intros s H.
  - apply startswith_contains. exact H.
  - destruct s as [|b s]; simpl in H; [discriminate|].
    apply andb_true_iff in H. destruct H as [_ H].
    apply contains_cons, IH, H.
Qed.

(** A string that holds [p ++ key] holds [key]. *)
Lemma contains_suffix_of_key p key s :
  PyStr.contains (p ++ key) s = true -> PyStr.contains key s = true.
Proof.
  induction s as [|c s IH]; intros H.
  - simpl in H. rewrite orb_false_r in H.
    exact (startswith_append_contains p key "" H).
  - change (PyStr.startswith (p ++ key) (String c s)
            || PyStr.contains (p ++ key) s = true) in H.
    apply orb_true_iff in H. destruct H as [H|H].
    + exact (startswith_append_contains p key _ H).
    + apply contains_cons, IH, H.
Qed.

(** The catalog entry for "os-signpost" can never be the first match:
    every name that holds "os-signpost" holds "signpost", which is listed
    before it. *)
Lemma os_signpost_entry_unreachable schema :
  contributes os_signpost_text schema = false.
Proof.
  unfold contributes, first_insight.
  set (l := PyStr.lower schema).
  pose proof (contains_suffix_of_key "os-" "signpost" l) as Hsub.
  change ("os-" ++ "signpost") with "os-signpost" in Hsub.
  unfold schema_insights. cbn [find fst snd].
  destruct (PyStr.contains "time-profile" l); [reflexivity|].
  destruct (PyStr.contains "allocations" l); [reflexivity|].
  destruct (PyStr.contains "leaks" l); [reflexivity|].
  destruct (PyStr.contains "hangs" l); [reflexivity|].
  destruct (PyStr.contains "signpost" l); [reflexivity|].
  destruct (PyStr.contains "os-signpost" l); [specialize (Hsub eq_refl); discriminate|].
  destruct (PyStr.contains "kdebug" l); [reflexivity|].
  destruct (PyStr.contains "metal-gpu" l); [reflexivity|].
  destruct (PyStr.contains "core-animation" l); reflexivity.
Qed.

Lemma first_insight_in_catalog schema text :
  first_insight schema = Some text -> In text (map snd schema_insights).
Proof.
  unfold first_insight.
  destruct (find _ schema_insights) as [kv|] eqn:E; [|discriminate].
  intros H. injection H as <-.
  apply in_map. exact (proj1 (find_some _ _ E)).
Qed.

Lemma fallback_not_in_catalog schemas text :
  In text (map snd schema_insights) -> fallback_insight schemas <> text.
Proof.
  intros H. unfold fallback_insight. simpl in H.
  repeat (destruct H as [<-|H]; [simpl; discriminate|]).
  contradiction.
Qed.

Lemma count_matched_insights schemas text :
  count_occ string_dec (matched_insights schemas) text
  = length (filter (contributes text) schemas).
Proof.
  induction schemas as [|s schemas IH]; [reflexivity|].
  unfold matched_insights in *. cbn [flat_map filter].
  rewrite count_occ_app, IH. unfold contributes at 2.
  destruct (first_insight s) as [t|]; [|reflexivity].
  cbn [count_occ]. destruct (string_dec t text) as [->|Hne].
  - rewrite String.eqb_refl. reflexivity.
  - apply String.eqb_neq in Hne. rewrite Hne. reflexivity.
Qed.

Lemma matched_insights_nil schemas :
  (forall s, In s schemas -> first_insight s = None) ->
  matched_insights schemas = [].
Proof.
  induction schemas as [|s schemas IH]; intros H; [reflexivity|].
  unfold matched_insights in *. cbn [flat_map].
  rewrite (H s (or_introl eq_refl)). apply IH.
  intros x Hx. apply H. right. exact Hx.
Qed.

Lemma insights_for_nonempty schemas : insights_for schemas <> [].
Proof.
  unfold insights_for. destruct (matched_insights schemas); discriminate.
Qed.

(** The schema list of [get_trace_info] never repeats a name. *)
Lemma add_schema_NoDup schemas s :
  NoDup schemas -> NoDup (add_schema schemas s).
Proof.
  intros H. unfold add_schema.
  destruct (existsb (String.eqb s) schemas) eqn:E; [exact H|].
  apply NoDup_app; [exact H | repeat constructor; intros [] | ].
  intros x Hx [<-|[]].
  assert (existsb (String.eqb s) schemas = true) as E'.
  { apply existsb_exists. exists s. split; [exact Hx | apply String.eqb_refl]. }
  congruence.
Qed.

Lemma collect_schemas_NoDup root info :
  NoDup (info_schemas info) -> NoDup (info_schemas (collect root info)).
Proof.
  unfold collect. revert info.
  induction (findall "run" root) as [|run rs IH]; intros info H; [exact H|].
  cbn [fold_left]. apply IH. cbn [info_schemas].
  revert H. generalize (info_schemas info).
  induction (run_tables run) as [|t ts IHt]; intros l H; [exact H|].
  cbn [fold_left]. apply IHt, add_schema_NoDup, H.
Qed.

(** C7, as amended. Insights are not deduplicated: every schema of the
    report's schema list contributes the text of its first matching
    catalog entry once, so a catalog text occurs in the insights as many
    times as there are schemas whose first match it is (twice for two
    schemas that map to the same text). *)
Theorem insights_once_per_matching_schema
    (subprocess_run : list string -> M CompletedProcess)
    (fromstring : string -> Parsed)
    (input_path : string) (verbose : bool) (w w' : World) (a : Analysis)
    (text : string) :
  analyze_trace subprocess_run fromstring input_path verbose w = (Return a, w') ->
  In text (map snd schema_insights) ->
  count_occ string_dec (insights a) text
  = length (filter (contributes text) (available_data a)).
Proof.
  intros Hrun Htext.
  rewrite (analyze_trace_insights _ _ _ _ _ _ _ Hrun).
  rewrite <- count_matched_insights. unfold insights_for.
  destruct (matched_insights (available_data a)) eqn:E; [|reflexivity].
  cbn [count_occ].
  destruct (string_dec (fallback_insight (available_data a)) text) as [Heq|_];
    [|reflexivity].
  exfalso. exact (fallback_not_in_catalog _ _ Htext Heq).
Qed.

(** C7 at work: a trace whose tables are "time-profile-1" and
    "time-profile-2"; the CPU text is counted once per schema. *)
Lemma insights_once_per_matching_schema_witness :
  count_occ string_dec
    (insights (analysis_of "rec.trace" false
                 (collect (toc_of_schemas ["time-profile-1"; "time-profile-2"])
                    (mkInfo "rec.trace" (size_mb_of 4096) [] []))))
    cpu_text
  = length (filter (contributes cpu_text)
              (available_data
                 (analysis_of "rec.trace" false
                    (collect (toc_of_schemas ["time-profile-1"; "time-profile-2"])
                       (mkInfo "rec.trace" (size_mb_of 4096) [] []))))).
Proof.
  apply (insights_once_per_matching_schema
           (tool_exits 0 "<trace-toc/>" "")
           (parser_yields (toc_of_schemas ["time-profile-1"; "time-profile-2"]))
           "rec.trace" false (world_with "rec.trace" 4096)
           (world_with "rec.trace" 4096)).
  - reflexivity.
  - left. reflexivity.
Defined.

(** C7 as stated fails: two schemas of one schema list whose first match
    is the same catalog entry put its text into the report twice. *)
Lemma identical_insight_text_appears_twice :
  exists a w',
    analyze_trace (tool_exits 0 "<trace-toc/>" "")
      (parser_yields (toc_of_schemas ["time-profile-1"; "time-profile-2"]))
      "rec.trace" false (world_with "rec.trace" 4096)
    = (Return a, w')
    /\ available_data a = ["time-profile-1"; "time-profile-2"]
    /\ first_insight "time-profile-1" = Some cpu_text
    /\ first_insight "time-profile-2" = Some cpu_text
    /\ insights a = [cpu_text; cpu_text]
    /\ count_occ string_dec (insights a) cpu_text = 2.
Proof.
  eexists. eexists. split; [reflexivity|]. repeat split.
Qed.

(** C8. The schema list "time-profile-18", "os-signpost-3" gives two
    insights in that order, but the second is the "Signpost intervals"
    text, not the "OS-level signposts" text: "signpost" stands before
    "os-signpost" in the catalog and occurs in every name that holds
    "os-signpost". The schema list "custom-xyz" gives the one fallback
    insight with the count 1. *)
Theorem os_signpost_schema_reports_signpost_text :
  (exists a w',
      analyze_trace (tool_exits 0 "<trace-toc/>" "")
        (parser_yields (toc_of_schemas ["time-profile-18"; "os-signpost-3"]))
        "rec.trace" false (world_with "rec.trace" 4096)
      = (Return a, w')
      /\ available_data a = ["time-profile-18"; "os-signpost-3"]
      /\ insights a = [cpu_text; signpost_text]
      /\ insights a <> [cpu_text; os_signpost_text])
  /\ (exists b w',
         analyze_trace (tool_exits 0 "<trace-toc/>" "")
           (parser_yields (toc_of_schemas ["custom-xyz"]))
           "rec.trace" false (world_with "rec.trace" 4096)
         = (Return b, w')
         /\ available_data b = ["custom-xyz"]
         /\ insights b
            = ["Trace contains 1 data tables. Open in Instruments.app for detailed analysis."]).
Proof.
  split.
  - eexists. eexists. split; [reflexivity|].
    split; [reflexivity|]. split; [reflexivity|]. discriminate.
  - eexists. eexists. split; [reflexivity|]. split; reflexivity.
Qed.

(** C10. Every report [analyze_trace] returns has at least one insight:
    when no schema of the report matches a catalog pattern (in particular
    when there is no schema at all) the insights are exactly the one
    fallback text with the number of schemas. *)
Theorem analysis_insights_never_empty
    (subprocess_run : list string -> M CompletedProcess)
    (fromstring : string -> Parsed)
    (input_path : string) (verbose : bool) (w w' : World) (a : Analysis) :
  analyze_trace subprocess_run fromstring input_path verbose w = (Return a, w') ->
  insights a <> []
  /\ ((forall s k t, In s (available_data a) -> In (k, t) schema_insights ->
                     PyStr.contains k (PyStr.lower s) = false) ->
      insights a
      = ["Trace contains " ++ PyStr.of_nat (length (available_data a))
         ++ " data tables. Open in Instruments.app for detailed analysis."])
  /\ (available_data a = [] -> insights a = [no_schema_text]).
Proof.
  intros Hrun. rewrite (analyze_trace_insights _ _ _ _ _ _ _ Hrun).
  split; [apply insights_for_nonempty|]. split.
  - intros Hnone. unfold insights_for.
    rewrite matched_insights_nil; [reflexivity|].
    intros s Hs. unfold first_insight.
    rewrite find_all_false; [reflexivity|].
    intros [k t] Hkt. exact (Hnone s k t Hs Hkt).
  - intros ->. reflexivity.
Qed.

(** C10 at work: a trace whose only table has the schema "custom-xyz". *)
Lemma analysis_insights_never_empty_witness :
  insights (analysis_of "rec.trace" true
              (collect (toc_of_schemas ["custom-xyz"])
                 (mkInfo "rec.trace" (size_mb_of 4096) [] [])))
  = ["Trace contains 1 data tables. Open in Instruments.app for detailed analysis."].
Proof.
  refine (proj1 (proj2
            (analysis_insights_never_empty (tool_exits 0 "<trace-toc/>" "")
               (parser_yields (toc_of_schemas ["custom-xyz"]))
               "rec.trace" true (world_with "rec.trace" 4096)
               (world_with "rec.trace" 4096) _ eq_refl)) _).
  intros s k t [<-|[]] Hkt. simpl in Hkt.
  repeat (destruct Hkt as [Hkt|Hkt]; [injection Hkt as <- <-; reflexivity|]).
  contradiction.
Defined.

(** ** Process resolver *)

Lemma all_chars_app f a b :
  all_chars f (a ++ b) = all_chars f a && all_chars f b.
Proof.
  induction a as [|c a IH]; [reflexivity|].
  simpl. rewrite IH. apply andb_assoc.
Qed.

Lemma isspace_newline : PyStr.isspace newline = true.
Proof. reflexivity. Qed.

Lemma visible_not_newline c : visible c = true -> not_newline c = true.
Proof.
  unfold visible, not_newline. intros H.
  destruct (Ascii.eqb c newline) eqn:E; [|reflexivity].
  apply Ascii.eqb_eq in E. subst c. discriminate H.
Qed.

Lemma visible_one_line s : all_chars visible s = true -> one_line s = true.
Proof.
  unfold one_line. induction s as [|c s IH]; [reflexivity|].
  simpl. intros H. apply andb_true_iff in H. destruct H as [Hc Hs].
  rewrite (visible_not_newline c Hc), (IH Hs). reflexivity.
Qed.

Lemma rstrip_empty_blank s : PyStr.rstrip s = "" -> blank s = true.
Proof.
  unfold blank. induction s as [|c s IH]; [reflexivity|].
  simpl. destruct (PyStr.rstrip s) as [|d r]; [|discriminate].
  destruct (PyStr.isspace c); [|discriminate].
  intros _. exact (IH eq_refl).
Qed.

Lemma rstrip_cons c s :
  blank s = false -> PyStr.rstrip (String c s) = String c (PyStr.rstrip s).
Proof.
  intros H. simpl.
  destruct (PyStr.rstrip s) as [|d r] eqn:E; [|reflexivity].
  rewrite (rstrip_empty_blank s E) in H. discriminate.
Qed.

Lemma blank_app_r a b : blank b = false -> blank (a ++ b) = false.
Proof.
  intros H. unfold blank in *. rewrite all_chars_app, H. apply andb_false_r.
Qed.

(** Trailing whitespace is only taken off what follows the last visible
    character. *)
Lemma rstrip_app a b :
  blank b = false -> PyStr.rstrip (a ++ b) = a ++ PyStr.rstrip b.
Proof.
  intros H. induction a as [|c a IH]; [reflexivity|].
  change (String c a ++ b) with (String c (a ++ b)).
  rewrite (rstrip_cons c (a ++ b) (blank_app_r a b H)), IH. reflexivity.
Qed.

Lemma split_nonempty sep s : PyStr.split sep s <> [].
Proof.
  destruct s as [|c s]; simpl; [discriminate|].
  destruct (Ascii.eqb c sep); [discriminate|].
  destruct (PyStr.split sep s); discriminate.
Qed.

(** The first item of a split is the text before the first separator. *)
Lemma split_first_line line rest :
  one_line line = true ->
  PyStr.split newline (line ++ String newline rest)
  = line :: PyStr.split newline rest.
Proof.
  unfold one_line. induction line as [|c line IH]; intros H.
  - change ("" ++ String newline rest) with (String newline rest).
    cbn [PyStr.split]. rewrite Ascii.eqb_refl. reflexivity.
  - simpl in H. apply andb_true_iff in H. destruct H as [Hc Hl].
    change (String c line ++ String newline rest)
      with (String c (line ++ String newline rest)).
    cbn [PyStr.split]. unfold not_newline in Hc.
    apply negb_true_iff in Hc. rewrite Hc, (IH Hl). reflexivity.
Qed.

Lemma span_word_app word rest :
  all_chars visible word = true ->
  match rest with String c _ => PyStr.isspace c = true | EmptyString => True end ->
  PyStr.span_word (word ++ rest) = (word, rest).
Proof.
  intros Hw Hr. induction word as [|c word IH].
  - simpl. destruct rest as [|d rest]; [reflexivity|].
    simpl. rewrite Hr. reflexivity.
  - simpl in Hw. apply andb_true_iff in Hw. destruct Hw as [Hc Hw].
    change (String c word ++ rest) with (String c (word ++ rest)).
    cbn [PyStr.span_word]. unfold visible in Hc.
    apply negb_true_iff in Hc. rewrite Hc, (IH Hw). reflexivity.
Qed.

Lemma lstrip_visible c s :
  visible c = true -> PyStr.lstrip (String c s) = String c s.
Proof.
  unfold visible. intros H. apply negb_true_iff in H. simpl. rewrite H.
  reflexivity.
Qed.

Lemma lstrip_gap gap c s :
  blank gap = true -> visible c = true ->
  PyStr.lstrip (gap ++ String c s) = String c s.
Proof.
  unfold blank. intros Hg Hc. induction gap as [|d gap IH].
  - apply lstrip_visible, Hc.
  - simpl in Hg. apply andb_true_iff in Hg. destruct Hg as [Hd Hg].
    simpl. rewrite Hd. exact (IH Hg).
Qed.

Lemma one_line_listing_line pid gap name :
  is_pid_text pid = true -> is_gap gap = true -> is_name_text name = true ->
  one_line (pid ++ gap ++ name) = true.
Proof.
  unfold is_pid_text, is_gap, is_name_text. intros Hp Hg Hn.
  apply andb_true_iff in Hp. destruct Hp as [_ Hp].
  apply andb_true_iff in Hg. destruct Hg as [_ Hg].
  apply andb_true_iff in Hn. destruct Hn as [_ Hn].
  pose proof (visible_one_line pid Hp) as Hp'.
  unfold one_line in *. rewrite !all_chars_app, Hp', Hg, Hn. reflexivity.
Qed.

Lemma split_ws1_listing_line pid gap name :
  is_pid_text pid = true -> is_gap gap = true -> is_name_text name = true ->
  PyStr.split_ws1 (pid ++ gap ++ name) = [pid; name].
Proof.
  unfold is_pid_text, is_gap, is_name_text. intros Hp Hg Hn.
  apply andb_true_iff in Hp. destruct Hp as [Hp0 Hp].
  apply andb_true_iff in Hg. destruct Hg as [Hg _].
  apply andb_true_iff in Hg. destruct Hg as [Hg0 Hg].
  apply andb_true_iff in Hn. destruct Hn as [Hn _].
  destruct name as [|d name]; [discriminate|].
  assert (PyStr.span_word (pid ++ gap ++ String d name)
          = (pid, gap ++ String d name)) as Hspan.
  { apply span_word_app; [exact Hp|].
    destruct gap as [|g gap]; [discriminate|].
    simpl in Hg. apply andb_true_iff in Hg. exact (proj1 Hg). }
  destruct pid as [|c pid]; [discriminate|].
  simpl in Hp. apply andb_true_iff in Hp. destruct Hp as [Hc _].
  unfold PyStr.split_ws1.
  change (String c pid ++ gap ++ String d name)
    with (String c (pid ++ gap ++ String d name)) in *.
  rewrite (lstrip_visible c _ Hc), Hspan, (lstrip_gap gap d name Hg Hn).
  reflexivity.
Qed.

(** The listing's first line decides: with more lines below it, the id and
    the name of the first line come back. *)
Lemma first_match_listing pid gap name rest :
  is_pid_text pid = true -> is_gap gap = true -> is_name_text name = true ->
  blank rest = false ->
  first_match ((pid ++ gap ++ name) ++ String newline rest)
  = Some [("pid", pid); ("name", name)].
Proof.
  intros Hp Hg Hn Hrest.
  pose proof (one_line_listing_line pid gap name Hp Hg Hn) as Hline.
  pose proof (split_ws1_listing_line pid gap name Hp Hg Hn) as Hsplit.
  set (line := pid ++ gap ++ name) in *.
  assert (exists c tl, line = String c tl /\ visible c = true) as (c & tl & Hc & Hv).
  { subst line. unfold is_pid_text in Hp.
    destruct pid as [|c pid]; [discriminate|].
    simpl in Hp. apply andb_true_iff in Hp. destruct Hp as [Hv _].
    exists c, (pid ++ gap ++ name). split; [reflexivity | exact Hv]. }
  assert (blank (String newline rest) = false) as Hb.
  { unfold blank. cbn [all_chars]. rewrite isspace_newline. exact Hrest. }
  unfold first_match, PyStr.strip.
  assert (PyStr.lstrip (line ++ String newline rest)
          = line ++ String newline rest) as ->.
  { rewrite Hc. apply lstrip_visible, Hv. }
  rewrite (rstrip_app line _ Hb), (rstrip_cons newline rest Hrest).
  rewrite (split_first_line line _ Hline), Hsplit.
  rewrite Hc. reflexivity.
Qed.

Section AttachClaims.

Variable subprocess_run : list string -> M CompletedProcess.
Variables (name : string) (w w' : World) (r : CompletedProcess).

Hypothesis query_returns :
  subprocess_run ["pgrep"; "-l"; name] w = (Return r, w').

Lemma find_process_cases :
  find_process subprocess_run name w
  = (Return (if (returncode r =? 0)%Z then first_match (stdout r) else None),
     w').
Proof.
  unfold find_process. rewrite (bind_return _ _ _ _ _ query_returns).
  destruct (returncode r =? 0)%Z; reflexivity.
Qed.

(** C9, as amended. When the query succeeds with several matching
    lines, [find_process] returns the process id and the name of the
    first line of the output; the result has the two fields [pid] and
    [name] and nothing that tells the caller that more lines matched. *)
Theorem find_process_takes_first_line pid gap pname rest :
  returncode r = 0%Z ->
  stdout r = (pid ++ gap ++ pname) ++ String newline rest ->
  is_pid_text pid = true -> is_gap gap = true ->
  is_name_text pname = true -> blank rest = false ->
  find_process subprocess_run name w
  = (Return (Some [("pid", pid); ("name", pname)]), w').
Proof.
  intros Hzero Hout Hp Hg Hn Hrest.
  rewrite find_process_cases, Hzero, Hout.
  rewrite (first_match_listing pid gap pname rest Hp Hg Hn Hrest).
  reflexivity.
Qed.

End AttachClaims.

(** C9 at work: two processes match "foo"; the first line wins. *)
Lemma find_process_takes_first_line_witness :
  find_process (tool_exits 0 pgrep_two_matches "") "foo" empty_world
  = (Return (Some [("pid", "123"); ("name", "foo")]), empty_world).
Proof.
  exact (find_process_takes_first_line (tool_exits 0 pgrep_two_matches "")
           "foo" empty_world empty_world (mkCompleted 0 pgrep_two_matches "")
           eq_refl "123" " " "foo" ("456 foobar" ++ String newline "")
           eq_refl eq_refl eq_refl eq_refl eq_refl eq_refl).
Defined.

(** C9 as stated fails: with two matching lines the result is the same
    dictionary as with the first line alone, and it has no field besides
    [pid] and [name]. *)
Lemma find_process_result_has_no_naive_field :
  exists d,
    find_process (tool_exits 0 pgrep_two_matches "") "foo" empty_world
    = (Return (Some d), empty_world)
    /\ find_process (tool_exits 0 pgrep_one_match "") "foo" empty_world
       = (Return (Some d), empty_world)
    /\ map fst d = ["pid"; "name"]
    /\ ~ has_extra_field d.
Proof.
  exists [("pid", "123"); ("name", "foo")].
  split; [reflexivity|]. split; [reflexivity|]. split; [reflexivity|].
  intros (k & v & Hin & Hpid & Hname).
  destruct Hin as [H|[H|[]]]; injection H as <- _; congruence.
Qed.

(** * Further properties of the scripts *)

(** ** Recorder: arguments, effects and errors *)

Lemma target_flags_ignores_all_processes attach launch :
  target_flags attach launch true = target_flags attach launch false.
Proof.
  unfold target_flags.
  destruct (truthy attach); [reflexivity|].
  destruct (truthy_list launch); reflexivity.
Qed.

(** The [all_processes] parameter has no effect: with or without it
    [record_trace] runs the same command and ends the same way. *)
Theorem record_trace_ignores_all_processes
    (subprocess_run : list string -> M CompletedProcess)
    (template : string) (output attach : option string)
    (launch : option (list string)) (time_limit device : option string)
    (quiet : bool) (w : World) :
  build_command template (output_path_of template output w) attach launch true
    time_limit device quiet
  = build_command template (output_path_of template output w) attach launch
      false time_limit device quiet
  /\ record_trace subprocess_run template output attach launch true
       time_limit device quiet w
     = record_trace subprocess_run template output attach launch false
         time_limit device quiet w.
Proof.
  split.
  - unfold build_command. now rewrite target_flags_ignores_all_processes.
  - rewrite !record_trace_cases. unfold command_of, build_command.
    now rewrite target_flags_ignores_all_processes.
Qed.


(** [record_trace] itself changes nothing but the console, and only before
    the external call and when not quiet: the tool is started on the
    caller's files and clock, with the narration lines added to the
    console (none when quiet), and the machine [record_trace] leaves is
    the one the tool left. *)
Theorem record_trace_effects
    (subprocess_run : list string -> M CompletedProcess)
    (template : string) (output attach : option string)
    (launch : option (list string)) (all_processes : bool)
    (time_limit device : option string) (quiet : bool) (w : World) :
  let w1 := world_at_launch template output time_limit quiet w in
  files w1 = files w
  /\ clock w1 = clock w
  /\ console w1
     = (console w
        ++ (if quiet then []
            else narration_lines template (output_path_of template output w)
                   time_limit))%list
  /\ snd (record_trace subprocess_run template output attach launch
            all_processes time_limit device quiet w)
     = snd (subprocess_run
              (command_of template output attach launch all_processes
                 time_limit device quiet w) w1).
Proof.
  intros w1. subst w1. split; [|split; [|split]].
  - apply narration_keeps_files.
  - unfold world_at_launch, narrate, narration_lines, bind, print, when.
    destruct quiet; [reflexivity|]. destruct (truthy time_limit); reflexivity.
  - unfold world_at_launch, narrate, narration_lines, bind, print, when.
    destruct quiet; simpl; [now rewrite app_nil_r|].
    destruct (truthy time_limit); simpl; now rewrite <- ?app_assoc.
  - rewrite record_trace_cases.
    destruct (subprocess_run _ _) as [[r|e] w2]; simpl.
    + destruct (files w2 _); reflexivity.
    + destruct e; try reflexivity. destruct (files w2 _); reflexivity.
Qed.

(** Only Ctrl+C is absorbed: any other exception of [subprocess.run] (a
    missing [xcrun], say) leaves [record_trace] unchanged, whether or not
    the output path exists. *)
Theorem record_trace_propagates_other_exceptions
    (subprocess_run : list string -> M CompletedProcess)
    (template : string) (output attach : option string)
    (launch : option (list string)) (all_processes : bool)
    (time_limit device : option string) (quiet : bool) (w w2 : World)
    (e : Exception) :
  e <> KeyboardInterrupt ->
  subprocess_run
    (command_of template output attach launch all_processes
       time_limit device quiet w)
    (world_at_launch template output time_limit quiet w) = (Raise e, w2) ->
  record_trace subprocess_run template output attach launch all_processes
    time_limit device quiet w
  = (Raise e, w2).
Proof.
  intros Hne Hrun. rewrite record_trace_cases, Hrun.
  destruct e; try reflexivity. contradiction.
Qed.

Lemma record_trace_propagates_other_exceptions_witness :
  record_trace tool_missing "Leaks" (Some "out.trace") None None false None None
    true (world_with "out.trace" 10)
  = (Raise (FileNotFoundError "xcrun"), world_with "out.trace" 10).
Proof.
  apply record_trace_propagates_other_exceptions; [discriminate | reflexivity].
Defined.

(** ** Recorder: the synthesized output path *)

Lemma str_app_inv_head a x y : a ++ x = a ++ y -> x = y.
Proof.
  induction a as [|c a IH]; intros H; [exact H|].
  injection H as H. exact (IH H).
Qed.

Lemma str_length_app a b :
  String.length (a ++ b) = String.length a + String.length b.
Proof. induction a as [|c a IH]; simpl; [reflexivity | now rewrite IH]. Qed.

Lemma str_app_inv_tail x y b : x ++ b = y ++ b -> x = y.
Proof.
  revert y. induction x as [|c x IH]; intros [|d y] H.
  - reflexivity.
  - apply (f_equal String.length) in H.
    change (String d y ++ b) with (String d (y ++ b)) in H.
    simpl in H. rewrite str_length_app in H. lia.
  - apply (f_equal String.length) in H.
    change (String c x ++ b) with (String c (x ++ b)) in H.
    simpl in H. rewrite str_length_app in H. lia.
  - injection H as -> H. f_equal. exact (IH y H).
Qed.

Lemma replace_leaves_no_space s :
  all_chars not_space (PyStr.replace " " "_" s) = true.
Proof.
  induction s as [|c s IH]; [reflexivity|].
  cbn [PyStr.replace all_chars]. rewrite IH, andb_true_r.
  unfold not_space. destruct (Ascii.eqb c " ") eqn:E; [reflexivity|].
  rewrite E. reflexivity.
Qed.

(** The synthesized output name never holds a space character, whatever
    the template name, as long as the clock reading holds none (the
    format "%Y%m%d_%H%M%S" prints none). *)
Theorem default_output_has_no_space template timestamp :
  all_chars not_space timestamp = true ->
  all_chars not_space (default_output template timestamp) = true.
Proof.
  intros H. unfold default_output.
  rewrite !all_chars_app, replace_leaves_no_space, H. reflexivity.
Qed.

Lemma default_output_has_no_space_witness :
  all_chars not_space (default_output "Time  Profiler X" "20240102_030405") = true.
Proof. apply default_output_has_no_space. reflexivity. Defined.

(** Two recordings of one template without an output argument get the
    same synthesized name only when the clock readings are the same. *)
Theorem default_output_distinct_per_timestamp template t1 t2 :
  default_output template t1 = default_output template t2 -> t1 = t2.
Proof.
  unfold default_output. intros H.
  apply str_app_inv_head in H. injection H as H.
  exact (str_app_inv_tail _ _ _ H).
Qed.

Lemma default_output_distinct_per_timestamp_witness :
  default_output "Allocations" "20240102_030405"
  = default_output "Allocations" ("20240102" ++ "_030405")
  /\ "20240102_030405" = "20240102" ++ "_030405".
Proof.
  split; [reflexivity|].
  apply (default_output_distinct_per_timestamp "Allocations"). reflexivity.
Defined.

(** ** TOC extractor and analysis: the schema list *)

Lemma filter_filter {A} (p q : A -> bool) l :
  filter p (filter q l) = filter (fun y => p y && q y) l.
Proof.
  induction l as [|x l IH]; [reflexivity|].
  simpl. destruct (q x); simpl.
  - rewrite andb_true_r. destruct (p x); now rewrite IH.
  - rewrite andb_false_r. exact IH.
Qed.

Lemma filter_all_true {A} (p : A -> bool) l :
  (forall x, In x l -> p x = true) -> filter p l = l.
Proof.
  induction l as [|x l IH]; intros H; [reflexivity|].
  simpl. rewrite (H x (or_introl eq_refl)). f_equal.
  apply IH. intros y Hy. apply H. right. exact Hy.
Qed.

Lemma flat_map_map {A B C} (f : B -> list C) (g : A -> B) l :
  flat_map f (map g l) = flat_map (fun x => f (g x)) l.
Proof. induction l as [|x l IH]; simpl; [reflexivity | now rewrite IH]. Qed.

(** The deduplicating [append] loop, from any start: what is there stays,
    and the new names follow at their first places. *)
Lemma fold_add_schema l : forall acc,
  fold_left add_schema l acc
  = (acc ++ filter (fun y => negb (existsb (String.eqb y) acc)) (first_seen l))%list.
Proof.
  induction l as [|x l IH]; intros acc.
  - simpl. now rewrite app_nil_r.
  - cbn [fold_left first_seen]. rewrite IH. unfold add_schema.
    destruct (existsb (String.eqb x) acc) eqn:E.
    + f_equal. cbn [filter]. rewrite E. cbn [negb].
      rewrite filter_filter. apply filter_ext. intros y.
      destruct (String.eqb y x) eqn:Eyx; [|now rewrite andb_true_r].
      apply String.eqb_eq in Eyx. subst y. rewrite E. reflexivity.
    + rewrite <- app_assoc. f_equal. cbn [filter app]. rewrite E. cbn [negb].
      f_equal. rewrite filter_filter. apply filter_ext. intros y.
      rewrite existsb_app. cbn [existsb]. rewrite orb_false_r, negb_orb.
      reflexivity.
Qed.

Lemma fold_add_schema_nil l : fold_left add_schema l [] = first_seen l.
Proof.
  rewrite fold_add_schema. cbn [app]. apply filter_all_true. reflexivity.
Qed.

Lemma first_seen_incl l x : In x (first_seen l) -> In x l.
Proof.
  induction l as [|y l IH]; [intros []|].
  cbn [first_seen]. intros [->|H]; [left; reflexivity|].
  right. apply IH. exact (proj1 (proj1 (filter_In _ _ _) H)).
Qed.

Lemma collect_fields root : forall info,
  info_path (collect root info) = info_path info
  /\ info_size_mb (collect root info) = info_size_mb info
  /\ info_runs (collect root info)
     = (info_runs info
        ++ map (fun run => (get run "number", run_tables run))
             (findall "run" root))%list
  /\ info_schemas (collect root info)
     = fold_left add_schema (flat_map run_tables (findall "run" root))
         (info_schemas info).
Proof.
  unfold collect.
  induction (findall "run" root) as [|run rs IH]; intros info.
  - simpl. now rewrite app_nil_r.
  - cbn [fold_left]. destruct (IH (mkInfo (info_path info) (info_size_mb info)
        (info_runs info ++ [(get run "number", run_tables run)])
        (fold_left add_schema (run_tables run) (info_schemas info))))
      as (Hp & Hs & Hr & Hsch).
    rewrite Hp, Hs, Hr, Hsch. cbn [info_path info_size_mb info_runs info_schemas].
    repeat split.
    + now rewrite <- app_assoc.
    + cbn [flat_map map]. now rewrite fold_left_app.
Qed.

Lemma toc_schemas_of_tree root :
  toc_schemas (parse_toc_xml root) = flat_map run_tables (findall "run" root).
Proof.
  unfold toc_schemas, parse_toc_xml. rewrite flat_map_map.
  apply flat_map_ext. intros run. cbn [tables].
  unfold run_tables. rewrite flat_map_map. reflexivity.
Qed.

Lemma run_tables_nonempty run s : In s (run_tables run) -> s <> "".
Proof.
  unfold run_tables. intros H. apply in_flat_map in H.
  destruct H as (table & _ & H).
  destruct (get table "schema") as [[|c v]|]; simpl in H;
    try contradiction.
  destruct H as [<-|[]]. discriminate.
Qed.

Lemma get_trace_info_returns run parse input_path w info w' :
  get_trace_info run parse input_path w = (Return info, w') ->
  exists n,
    files w input_path = Some n
    /\ (info = mkInfo input_path (size_mb_of n) [] []
        \/ exists root, info = collect root (mkInfo input_path (size_mb_of n) [] [])).
Proof.
  unfold get_trace_info, bind at 1, path_exists.
  destruct (files w input_path) as [n|] eqn:E; cbn [negb]; [|discriminate].
  unfold bind at 1, getsize. rewrite E. unfold bind.
  destruct (run _ w) as [[r|e] w1]; [|discriminate].
  intros H. exists n. split; [reflexivity|].
  destruct (returncode r =? 0)%Z.
  - destruct (parse (stdout r)) as [root|msg]; injection H as <- _.
    + right. exists root. reflexivity.
    + left. reflexivity.
  - injection H as <- _. left. reflexivity.
Qed.

Lemma analyze_trace_returns run parse input_path verbose w a w' :
  analyze_trace run parse input_path verbose w = (Return a, w') ->
  exists info,
    get_trace_info run parse input_path w = (Return info, w')
    /\ a = analysis_of input_path verbose info.
Proof.
  unfold analyze_trace, bind.
  destruct (get_trace_info run parse input_path w) as [[info|e] w1];
    [|discriminate].
  intros H. injection H as <- <-. exists info. split; reflexivity.
Qed.

(** The two readers of the table of contents agree. On an export that
    exits zero with well-formed XML, [export_toc] returns the parsed runs
    with the raw text, and [get_trace_info] on the same trace lists as
    many runs with the same numbers, and its schema list is the schema
    names of the TOC's tables (those without a schema left out),
    deduplicated at first occurrence. *)
Theorem toc_and_trace_info_agree
    (subprocess_run : list string -> M CompletedProcess)
    (fromstring : string -> Parsed)
    (input_path : string) (w w' : World) (r : CompletedProcess)
    (root : Element) (n : N) :
  files w input_path = Some n ->
  subprocess_run (toc_command input_path) w = (Return r, w') ->
  returncode r = 0%Z ->
  fromstring (stdout r) = Tree root ->
  exists toc info,
    export_toc subprocess_run fromstring input_path w
    = (Return (TocParsed toc (stdout r)), w')
    /\ get_trace_info subprocess_run fromstring input_path w = (Return info, w')
    /\ map fst (info_runs info) = map number toc
    /\ info_schemas info = first_seen (toc_schemas toc).
Proof.
  intros Hn Hrun Hzero Htree.
  exists (parse_toc_xml root),
         (collect root (mkInfo input_path (size_mb_of n) [] [])).
  split; [|split; [|split]].
  - rewrite (export_toc_cases _ fromstring _ _ _ _ Hrun), Hzero, Htree.
    reflexivity.
  - rewrite (get_trace_info_cases _ fromstring _ _ _ _ _ Hn Hrun), Hzero, Htree.
    reflexivity.
  - destruct (collect_fields root (mkInfo input_path (size_mb_of n) [] []))
      as (_ & _ & Hr & _).
    rewrite Hr. cbn [info_runs app]. unfold parse_toc_xml.
    rewrite !map_map. reflexivity.
  - destruct (collect_fields root (mkInfo input_path (size_mb_of n) [] []))
      as (_ & _ & _ & Hs).
    rewrite Hs, toc_schemas_of_tree. apply fold_add_schema_nil.
Qed.

Lemma toc_and_trace_info_agree_witness :
  exists toc info,
    export_toc (tool_exits 0 "<trace-toc/>" "")
      (parser_yields (toc_of_schemas ["leaks"; "hangs"; "leaks"; ""; "kdebug"]))
      "rec.trace" (world_with "rec.trace" 4096)
    = (Return (TocParsed toc "<trace-toc/>"), world_with "rec.trace" 4096)
    /\ get_trace_info (tool_exits 0 "<trace-toc/>" "")
         (parser_yields (toc_of_schemas ["leaks"; "hangs"; "leaks"; ""; "kdebug"]))
         "rec.trace" (world_with "rec.trace" 4096)
       = (Return info, world_with "rec.trace" 4096)
    /\ map fst (info_runs info) = map number toc
    /\ info_schemas info = first_seen (toc_schemas toc).
Proof.
  apply (toc_and_trace_info_agree (tool_exits 0 "<trace-toc/>" "")
           (parser_yields (toc_of_schemas ["leaks"; "hangs"; "leaks"; ""; "kdebug"]))
           "rec.trace" (world_with "rec.trace" 4096) (world_with "rec.trace" 4096)
           (mkCompleted 0 "<trace-toc/>" "")
           (toc_of_schemas ["leaks"; "hangs"; "leaks"; ""; "kdebug"]) 4096%N);
    reflexivity.
Defined.

(** The schema list of every report is a set of real names: no name twice,
    none empty. *)
Theorem report_schemas_distinct_nonempty
    (subprocess_run : list string -> M CompletedProcess)
    (fromstring : string -> Parsed)
    (input_path : string) (verbose : bool) (w w' : World) (a : Analysis) :
  analyze_trace subprocess_run fromstring input_path verbose w = (Return a, w') ->
  NoDup (available_data a) /\ Forall (fun s => s <> "") (available_data a).
Proof.
  intros H. apply analyze_trace_returns in H. destruct H as (info & Hinfo & ->).
  apply get_trace_info_returns in Hinfo.
  destruct Hinfo as (n & _ & [->|[root ->]]); cbn [analysis_of available_data].
  - split; constructor.
  - split.
    + apply collect_schemas_NoDup. constructor.
    + apply Forall_forall. intros s Hs.
      destruct (collect_fields root (mkInfo input_path (size_mb_of n) [] []))
        as (_ & _ & _ & Hsch).
      rewrite Hsch in Hs. cbn [info_schemas] in Hs.
      rewrite fold_add_schema_nil in Hs. apply first_seen_incl in Hs.
      apply in_flat_map in Hs. destruct Hs as (run & _ & Hs).
      exact (run_tables_nonempty run s Hs).
Qed.

Lemma report_schemas_distinct_nonempty_witness :
  NoDup ["leaks"; "hangs"; "kdebug"]
  /\ Forall (fun s => s <> "") ["leaks"; "hangs"; "kdebug"].
Proof.
  exact (report_schemas_distinct_nonempty (tool_exits 0 "<trace-toc/>" "")
           (parser_yields (toc_of_schemas ["leaks"; "hangs"; "leaks"; ""; "kdebug"]))
           "rec.trace" false (world_with "rec.trace" 4096)
           (world_with "rec.trace" 4096)
           (analysis_of "rec.trace" false
              (collect (toc_of_schemas ["leaks"; "hangs"; "leaks"; ""; "kdebug"])
                 (mkInfo "rec.trace" (size_mb_of 4096) [] [])))
           eq_refl).
Defined.

(** ** Analysis: errors, verbosity and the insight list *)

(** A missing trace is reported before anything else happens: whatever
    the export tool and the parser would do, [analyze_trace] raises
    [FileNotFoundError] with the path and leaves the machine as it was. *)
Theorem analyze_trace_missing_file
    (subprocess_run : list string -> M CompletedProcess)
    (fromstring : string -> Parsed)
    (input_path : string) (verbose : bool) (w : World) :
  files w input_path = None ->
  analyze_trace subprocess_run fromstring input_path verbose w
  = (Raise (FileNotFoundError ("Trace not found: " ++ input_path)), w).
Proof.
  intros H. unfold analyze_trace.
  apply bind_raise. apply get_trace_info_missing. exact H.
Qed.

Lemma analyze_trace_missing_file_witness :
  analyze_trace tool_missing (parser_rejects "unused") "gone.trace" true
    (world_with "rec.trace" 4096)
  = (Raise (FileNotFoundError "Trace not found: gone.trace"),
     world_with "rec.trace" 4096).
Proof.
  exact (analyze_trace_missing_file tool_missing (parser_rejects "unused")
           "gone.trace" true (world_with "rec.trace" 4096) eq_refl).
Defined.

(** Output of the export tool that is no XML is swallowed by the analysis:
    the report has no runs and no schemas and only the fallback insight,
    and neither the raw text nor the parser's message is kept. *)
Theorem analyze_trace_swallows_parse_error
    (subprocess_run : list string -> M CompletedProcess)
    (fromstring : string -> Parsed)
    (input_path : string) (verbose : bool) (w w' : World)
    (r : CompletedProcess) (n : N) (msg : string) :
  files w input_path = Some n ->
  subprocess_run (toc_command input_path) w = (Return r, w') ->
  returncode r = 0%Z ->
  fromstring (stdout r) = ParseError msg ->
  analyze_trace subprocess_run fromstring input_path verbose w
  = (Return
       (mkAnalysis input_path (size_mb_of n) 0 [] [no_schema_text]
          [ "Open in Instruments: open '" ++ input_path ++ "'";
            "Export specific data: trace_export.py --xpath '<query>'" ]
          (if verbose then Some [] else None)
          (if verbose then Some [] else None)), w').
Proof.
  intros Hn Hrun Hzero Hbad.
  rewrite (analyze_trace_cases _ fromstring _ _ _ _ _ Hn Hrun verbose).
  rewrite Hzero, Hbad. reflexivity.
Qed.

Lemma analyze_trace_swallows_parse_error_witness :
  analyze_trace (tool_exits 0 "Killed" "")
    (parser_rejects "syntax error: line 1, column 0") "rec.trace" true
    (world_with "rec.trace" 4096)
  = (Return
       (mkAnalysis "rec.trace" (size_mb_of 4096) 0 [] [no_schema_text]
          [ "Open in Instruments: open 'rec.trace'";
            "Export specific data: trace_export.py --xpath '<query>'" ]
          (Some []) (Some [])), world_with "rec.trace" 4096).
Proof.
  exact (analyze_trace_swallows_parse_error (tool_exits 0 "Killed" "")
           (parser_rejects "syntax error: line 1, column 0") "rec.trace" true
           (world_with "rec.trace" 4096) (world_with "rec.trace" 4096)
           (mkCompleted 0 "Killed" "") 4096%N "syntax error: line 1, column 0"
           eq_refl eq_refl eq_refl eq_refl).
Defined.

(** Verbose mode only adds: a verbose report has the same file, size, run
    count, schema list, insights and next steps as the plain report of the
    same call; it carries the schema list once more and one detail entry
    per run, which the plain report lacks. *)
Theorem verbose_only_adds_details
    (subprocess_run : list string -> M CompletedProcess)
    (fromstring : string -> Parsed)
    (input_path : string) (w w' : World) (a : Analysis) :
  analyze_trace subprocess_run fromstring input_path true w = (Return a, w') ->
  exists b details,
    analyze_trace subprocess_run fromstring input_path false w = (Return b, w')
    /\ file b = file a /\ size_mb b = size_mb a /\ runs b = runs a
    /\ available_data b = available_data a /\ insights b = insights a
    /\ next_steps b = next_steps a
    /\ all_schemas b = None /\ runs_detail b = None
    /\ all_schemas a = Some (available_data a)
    /\ runs_detail a = Some details /\ length details = runs a.
Proof.
  intros H. apply analyze_trace_returns in H. destruct H as (info & Hinfo & ->).
  exists (analysis_of input_path false info), (info_runs info).
  split.
  - unfold analyze_trace. rewrite (bind_return _ _ _ _ _ Hinfo). reflexivity.
  - repeat split.
Qed.

Lemma verbose_only_adds_details_witness :
  exists b details,
    analyze_trace (tool_exits 0 "<trace-toc/>" "")
      (parser_yields (toc_of_schemas ["leaks"; "hangs"]))
      "rec.trace" false (world_with "rec.trace" 4096)
    = (Return b, world_with "rec.trace" 4096)
    /\ file b = "rec.trace" /\ size_mb b = size_mb_of 4096 /\ runs b = 1
    /\ available_data b = ["leaks"; "hangs"]
    /\ insights b
       = ["Memory leak detection - review any leaked objects";
          "Hang/hitch data - identifies UI responsiveness issues"]
    /\ next_steps b
       = ["Open in Instruments: open 'rec.trace'";
          "Export specific data: trace_export.py --xpath '<query>'"]
    /\ all_schemas b = None /\ runs_detail b = None
    /\ Some ["leaks"; "hangs"] = Some ["leaks"; "hangs"]
    /\ Some [(Some "1", ["leaks"; "hangs"])] = Some details
    /\ length details = 1.
Proof.
  exact (verbose_only_adds_details (tool_exits 0 "<trace-toc/>" "")
           (parser_yields (toc_of_schemas ["leaks"; "hangs"]))
           "rec.trace" (world_with "rec.trace" 4096)
           (world_with "rec.trace" 4096)
           (analysis_of "rec.trace" true
              (collect (toc_of_schemas ["leaks"; "hangs"])
                 (mkInfo "rec.trace" (size_mb_of 4096) [] [])))
           eq_refl).
Defined.

Lemma matched_insights_length schemas :
  length (matched_insights schemas) <= length schemas.
Proof.
  induction schemas as [|s schemas IH]; [apply le_n|].
  unfold matched_insights in *. cbn [flat_map]. rewrite length_app.
  destruct (first_insight s); simpl; lia.
Qed.

(** A report has at least one insight and never more than one per schema
    (one at most for an empty schema list). *)
Theorem insight_count_bounds
    (subprocess_run : list string -> M CompletedProcess)
    (fromstring : string -> Parsed)
    (input_path : string) (verbose : bool) (w w' : World) (a : Analysis) :
  analyze_trace subprocess_run fromstring input_path verbose w = (Return a, w') ->
  1 <= length (insights a) <= Nat.max 1 (length (available_data a)).
Proof.
  intros H. rewrite (analyze_trace_insights _ _ _ _ _ _ _ H).
  unfold insights_for.
  pose proof (matched_insights_length (available_data a)) as Hlen.
  destruct (matched_insights (available_data a)); cbn [length] in *; lia.
Qed.

Lemma insight_count_bounds_witness :
  1 <= length (insights
                 (analysis_of "rec.trace" false
                    (collect (toc_of_schemas ["leaks"; "custom-xyz"; "hangs"])
                       (mkInfo "rec.trace" (size_mb_of 4096) [] []))))
    <= Nat.max 1 3.
Proof.
  exact (insight_count_bounds (tool_exits 0 "<trace-toc/>" "")
           (parser_yields (toc_of_schemas ["leaks"; "custom-xyz"; "hangs"]))
           "rec.trace" false (world_with "rec.trace" 4096)
           (world_with "rec.trace" 4096) _ eq_refl).
Defined.

Lemma first_insight_key schema text :
  first_insight schema = Some text ->
  exists key, In (key, text) schema_insights
              /\ PyStr.contains key (PyStr.lower schema) = true.
Proof.
  unfold first_insight.
  destruct (find _ schema_insights) as [[key t]|] eqn:E; [|discriminate].
  intros H. injection H as <-. apply find_some in E.
  exists key. exact E.
Qed.

Lemma key_gives_first_insight schema key text :
  In (key, text) schema_insights ->
  PyStr.contains key (PyStr.lower schema) = true ->
  exists t, first_insight schema = Some t.
Proof.
  intros Hin Hc. unfold first_insight.
  destruct (find _ schema_insights) as [kv|] eqn:E; [eexists; reflexivity|].
  pose proof (find_none _ _ E (key, text) Hin) as Hf. simpl in Hf. congruence.
Qed.

Lemma in_matched_insights schemas text :
  In text (matched_insights schemas)
  <-> exists s, In s schemas /\ first_insight s = Some text.
Proof.
  unfold matched_insights. rewrite in_flat_map. split.
  - intros (s & Hs & H). exists s. split; [exact Hs|].
    destruct (first_insight s); [|contradiction].
    destruct H as [->|[]]. reflexivity.
  - intros (s & Hs & H). exists s. split; [exact Hs|].
    rewrite H. left. reflexivity.
Qed.

(** Where the insights of a report come from. Every insight is the
    fallback text or the catalog text of a key that occurs in one of the
    report's schema names, letter case ignored; and as soon as one schema
    name holds one catalog key, the fallback text is not among the
    insights. *)
Theorem insights_come_from_schemas
    (subprocess_run : list string -> M CompletedProcess)
    (fromstring : string -> Parsed)
    (input_path : string) (verbose : bool) (w w' : World) (a : Analysis) :
  analyze_trace subprocess_run fromstring input_path verbose w = (Return a, w') ->
  (forall text, In text (insights a) ->
      text = fallback_insight (available_data a)
      \/ exists s key, In s (available_data a)
                       /\ In (key, text) schema_insights
                       /\ PyStr.contains key (PyStr.lower s) = true)
  /\ (forall s key text,
         In s (available_data a) -> In (key, text) schema_insights ->
         PyStr.contains key (PyStr.lower s) = true ->
         ~ In (fallback_insight (available_data a)) (insights a)
         /\ exists t, first_insight s = Some t /\ In t (insights a)).
Proof.
  intros H. rewrite (analyze_trace_insights _ _ _ _ _ _ _ H).
  set (schemas := available_data a). split.
  - intros text Hin. unfold insights_for in Hin.
    destruct (matched_insights schemas) as [|t ts] eqn:E.
    + left. destruct Hin as [<-|[]]. reflexivity.
    + right. rewrite <- E in Hin. apply in_matched_insights in Hin.
      destruct Hin as (s & Hs & Hfirst).
      destruct (first_insight_key s text Hfirst) as (key & Hkey & Hc).
      exists s, key. repeat split; assumption.
  - intros s key text Hs Hkey Hc.
    destruct (key_gives_first_insight s key text Hkey Hc) as (t & Ht).
    assert (In t (matched_insights schemas)) as Hin.
    { apply in_matched_insights. exists s. split; assumption. }
    unfold insights_for.
    destruct (matched_insights schemas) as [|t0 ts] eqn:E; [contradiction|].
    rewrite <- E in Hin |- *. split.
    + intros Hfb. apply in_matched_insights in Hfb.
      destruct Hfb as (s' & _ & Hfirst).
      exact (fallback_not_in_catalog schemas _
               (first_insight_in_catalog s' _ Hfirst) eq_refl).
    + exists t. split; assumption.
Qed.

Lemma insights_come_from_schemas_witness :
  ~ In (fallback_insight ["custom-xyz"; "My-HANGS-table"])
       ["Hang/hitch data - identifies UI responsiveness issues"]
  /\ exists t, first_insight "My-HANGS-table" = Some t
               /\ In t ["Hang/hitch data - identifies UI responsiveness issues"].
Proof.
  exact (proj2
           (insights_come_from_schemas (tool_exits 0 "<trace-toc/>" "")
              (parser_yields (toc_of_schemas ["custom-xyz"; "My-HANGS-table"]))
              "rec.trace" false (world_with "rec.trace" 4096)
              (world_with "rec.trace" 4096)
              (analysis_of "rec.trace" false
                 (collect (toc_of_schemas ["custom-xyz"; "My-HANGS-table"])
                    (mkInfo "rec.trace" (size_mb_of 4096) [] [])))
              eq_refl)
           "My-HANGS-table" "hangs"
           "Hang/hitch data - identifies UI responsiveness issues"
           (or_intror (or_introl eq_refl))
           (or_intror (or_intror (or_intror (or_introl eq_refl))))
           eq_refl).
Defined.

(** ** Process resolver: no match, one match, malformed first line *)

Lemma lstrip_blank s : blank s = true -> PyStr.lstrip s = "".
Proof.
  unfold blank. induction s as [|c s IH]; [reflexivity|].
  simpl. intros H. apply andb_true_iff in H. destruct H as [Hc Hs].
  rewrite Hc. exact (IH Hs).
Qed.

Lemma rstrip_blank s : blank s = true -> PyStr.rstrip s = "".
Proof.
  unfold blank. induction s as [|c s IH]; [reflexivity|].
  simpl. intros H. apply andb_true_iff in H. destruct H as [Hc Hs].
  rewrite (IH Hs), Hc. reflexivity.
Qed.

Lemma rstrip_app_blank a b :
  blank b = true -> PyStr.rstrip (a ++ b) = PyStr.rstrip a.
Proof.
  intros H. induction a as [|c a IH].
  - simpl. exact (rstrip_blank b H).
  - change (String c a ++ b) with (String c (a ++ b)).
    cbn [PyStr.rstrip]. rewrite IH. reflexivity.
Qed.

Lemma rstrip_visible s : all_chars visible s = true -> PyStr.rstrip s = s.
Proof.
  induction s as [|c s IH]; [reflexivity|].
  simpl. intros H. apply andb_true_iff in H. destruct H as [Hc Hs].
  rewrite (IH Hs). unfold visible in Hc. apply negb_true_iff in Hc.
  rewrite Hc. destruct s; reflexivity.
Qed.

Lemma split_one_line s : one_line s = true -> PyStr.split newline s = [s].
Proof.
  unfold one_line. induction s as [|c s IH]; [reflexivity|].
  simpl. intros H. apply andb_true_iff in H. destruct H as [Hc Hs].
  unfold not_newline in Hc. apply negb_true_iff in Hc.
  fold newline. rewrite Hc, (IH Hs). reflexivity.
Qed.

Lemma span_word_visible s :
  all_chars visible s = true -> PyStr.span_word s = (s, "").
Proof.
  induction s as [|c s IH]; [reflexivity|].
  simpl. intros H. apply andb_true_iff in H. destruct H as [Hc Hs].
  unfold visible in Hc. apply negb_true_iff in Hc.
  rewrite Hc, (IH Hs). reflexivity.
Qed.

(** What [strip] and [split] make of a listing whose first line is
    already stripped: that line comes first, whatever follows it. *)
Lemma stripped_first_line c line tail :
  visible c = true -> one_line (String c line) = true ->
  PyStr.rstrip (String c line) = String c line ->
  (blank tail = true \/ exists rest, tail = String newline rest) ->
  exists more,
    PyStr.split newline (PyStr.strip (String c line ++ tail))
    = String c line :: more.
Proof.
  intros Hc Hline Hstrip Htail. unfold PyStr.strip.
  change (String c line ++ tail) with (String c (line ++ tail)).
  rewrite (lstrip_visible c _ Hc).
  change (String c (line ++ tail)) with (String c line ++ tail).
  assert (blank tail = true -> exists more,
            PyStr.split newline (PyStr.rstrip (String c line ++ tail))
            = String c line :: more) as Hblank.
  { intros Hb. exists []. rewrite (rstrip_app_blank _ _ Hb), Hstrip.
    exact (split_one_line _ Hline). }
  destruct Htail as [Hb|[rest ->]]; [exact (Hblank Hb)|].
  destruct (blank rest) eqn:Hrest.
  - apply Hblank. unfold blank in *. cbn [all_chars].
    rewrite isspace_newline. exact Hrest.
  - exists (PyStr.split newline (PyStr.rstrip rest)).
    assert (blank (String newline rest) = false) as Hb.
    { unfold blank in *. cbn [all_chars]. rewrite isspace_newline. exact Hrest. }
    rewrite (rstrip_app _ _ Hb), (rstrip_cons newline rest Hrest).
    exact (split_first_line _ _ Hline).
Qed.

Lemma listing_line_stripped pid gap name :
  is_pid_text pid = true -> is_gap gap = true -> is_name_text name = true ->
  PyStr.rstrip name = name ->
  PyStr.rstrip (pid ++ gap ++ name) = pid ++ gap ++ name.
Proof.
  intros _ _ Hn Hstrip. unfold is_name_text in Hn.
  destruct name as [|d name]; [discriminate|].
  apply andb_true_iff in Hn. destruct Hn as [Hd _].
  assert (blank (String d name) = false) as Hb.
  { unfold blank, visible in *. cbn [all_chars].
    apply negb_true_iff in Hd. rewrite Hd. reflexivity. }
  rewrite (rstrip_app pid _ (blank_app_r gap _ Hb)).
  rewrite (rstrip_app gap _ Hb), Hstrip. reflexivity.
Qed.

Lemma first_match_blank out : blank out = true -> first_match out = None.
Proof.
  intros H. unfold first_match, PyStr.strip.
  rewrite (lstrip_blank out H). reflexivity.
Qed.

Lemma first_match_well_formed pid gap name tail :
  is_pid_text pid = true -> is_gap gap = true -> is_name_text name = true ->
  PyStr.rstrip name = name ->
  (blank tail = true \/ exists rest, tail = String newline rest) ->
  first_match ((pid ++ gap ++ name) ++ tail)
  = Some [("pid", pid); ("name", name)].
Proof.
  intros Hp Hg Hn Hstrip Htail.
  pose proof (one_line_listing_line pid gap name Hp Hg Hn) as Hline.
  pose proof (split_ws1_listing_line pid gap name Hp Hg Hn) as Hsplit.
  pose proof (listing_line_stripped pid gap name Hp Hg Hn Hstrip) as Hrs.
  destruct pid as [|c pid]; [discriminate|].
  assert (visible c = true) as Hc.
  { unfold is_pid_text in Hp. simpl in Hp. apply andb_true_iff in Hp.
    exact (proj1 Hp). }
  change (String c pid ++ gap ++ name) with (String c (pid ++ gap ++ name)) in *.
  destruct (stripped_first_line c _ tail Hc Hline Hrs Htail) as (more & Hlines).
  unfold first_match. rewrite Hlines. cbn [PyStr.nonempty negb].
  rewrite Hsplit. reflexivity.
Qed.

Lemma first_match_single_word word tail :
  is_pid_text word = true ->
  (blank tail = true \/ exists rest, tail = String newline rest) ->
  first_match (word ++ tail) = None.
Proof.
  intros Hw Htail. unfold is_pid_text in Hw.
  apply andb_true_iff in Hw. destruct Hw as [Hne Hvis].
  pose proof (visible_one_line word Hvis) as Hline.
  pose proof (rstrip_visible word Hvis) as Hrs.
  pose proof (span_word_visible word Hvis) as Hspan.
  destruct word as [|c word]; [discriminate|].
  assert (visible c = true) as Hc.
  { simpl in Hvis. apply andb_true_iff in Hvis. exact (proj1 Hvis). }
  destruct (stripped_first_line c _ tail Hc Hline Hrs Htail) as (more & Hlines).
  unfold first_match. rewrite Hlines. cbn [PyStr.nonempty negb].
  unfold PyStr.split_ws1. rewrite (lstrip_visible c _ Hc), Hspan. reflexivity.
Qed.

(** No match is an answer, not an error: when [pgrep] exits nonzero, or
    exits zero with nothing but whitespace, [find_process] returns [None]. *)
Theorem find_process_no_match
    (subprocess_run : list string -> M CompletedProcess)
    (name : string) (w w' : World) (r : CompletedProcess) :
  subprocess_run ["pgrep"; "-l"; name] w = (Return r, w') ->
  returncode r <> 0%Z \/ blank (stdout r) = true ->
  find_process subprocess_run name w = (Return None, w').
Proof.
  intros Hrun H. rewrite (find_process_cases _ _ _ _ _ Hrun).
  destruct H as [H|H].
  - apply Z.eqb_neq in H. rewrite H. reflexivity.
  - rewrite (first_match_blank _ H). destruct (returncode r =? 0)%Z; reflexivity.
Qed.

Lemma find_process_no_match_witness :
  find_process (tool_exits 1 "" "") "nosuchapp" empty_world
  = (Return None, empty_world)
  /\ find_process (tool_exits 0 (String newline " ") "") "nosuchapp" empty_world
     = (Return None, empty_world).
Proof.
  split.
  - apply (find_process_no_match (tool_exits 1 "" "") "nosuchapp" empty_world
             empty_world (mkCompleted 1 "" "") eq_refl).
    left. discriminate.
  - apply (find_process_no_match (tool_exits 0 (String newline " ") "")
             "nosuchapp" empty_world empty_world
             (mkCompleted 0 (String newline " ") "") eq_refl).
    right. reflexivity.
Defined.

(** A well-formed first line is all [find_process] needs: an id, a gap
    and a name without trailing whitespace, followed by the end of the
    output, by whitespace only, or by a line break and anything at all.
    The name comes back whole, spaces inside it included. *)
Theorem find_process_well_formed_first_line
    (subprocess_run : list string -> M CompletedProcess)
    (name : string) (w w' : World) (r : CompletedProcess)
    (pid gap pname tail : string) :
  subprocess_run ["pgrep"; "-l"; name] w = (Return r, w') ->
  returncode r = 0%Z ->
  stdout r = (pid ++ gap ++ pname) ++ tail ->
  is_pid_text pid = true -> is_gap gap = true ->
  is_name_text pname = true -> PyStr.rstrip pname = pname ->
  blank tail = true \/ (exists rest, tail = String newline rest) ->
  find_process subprocess_run name w
  = (Return (Some [("pid", pid); ("name", pname)]), w').
Proof.
  intros Hrun Hzero Hout Hp Hg Hn Hstrip Htail.
  rewrite (find_process_cases _ _ _ _ _ Hrun), Hzero, Hout.
  rewrite (first_match_well_formed pid gap pname tail Hp Hg Hn Hstrip Htail).
  reflexivity.
Qed.

Lemma find_process_well_formed_first_line_witness :
  find_process (tool_exits 0 pgrep_name_with_spaces "") "Chrome" empty_world
  = (Return (Some [("pid", "412"); ("name", "Google Chrome Helper")]),
     empty_world).
Proof.
  apply (find_process_well_formed_first_line
           (tool_exits 0 pgrep_name_with_spaces "") "Chrome" empty_world
           empty_world (mkCompleted 0 pgrep_name_with_spaces "")
           "412" " " "Google Chrome Helper" (String newline ""));
    try reflexivity.
  left. reflexivity.
Defined.

(** Only the first line is looked at: when it holds a single word (an id
    without a name), [find_process] returns [None], even if well-formed
    lines follow. *)
Theorem find_process_malformed_first_line
    (subprocess_run : list string -> M CompletedProcess)
    (name : string) (w w' : World) (r : CompletedProcess)
    (word tail : string) :
  subprocess_run ["pgrep"; "-l"; name] w = (Return r, w') ->
  stdout r = word ++ tail ->
  is_pid_text word = true ->
  blank tail = true \/ (exists rest, tail = String newline rest) ->
  find_process subprocess_run name w = (Return None, w').
Proof.
  intros Hrun Hout Hw Htail.
  rewrite (find_process_cases _ _ _ _ _ Hrun), Hout.
  rewrite (first_match_single_word word tail Hw Htail).
  destruct (returncode r =? 0)%Z; reflexivity.
Qed.

Lemma find_process_malformed_first_line_witness :
  find_process (tool_exits 0 pgrep_broken_first_line "") "foo" empty_world
  = (Return None, empty_world).
Proof.
  apply (find_process_malformed_first_line
           (tool_exits 0 pgrep_broken_first_line "") "foo" empty_world
           empty_world (mkCompleted 0 pgrep_broken_first_line "")
           "1234" (String newline ("456 foo" ++ String newline "")));
    try reflexivity.
  right. eexists. reflexivity.
Defined.

(** ** Template listing *)

Lemma all_chars_lstrip f s :
  all_chars f s = true -> all_chars f (PyStr.lstrip s) = true.
Proof.
  induction s as [|c s IH]; [reflexivity|].
  intros H. cbn [PyStr.lstrip]. destruct (PyStr.isspace c); [|exact H].
  simpl in H. apply andb_true_iff in H. exact (IH (proj2 H)).
Qed.

Lemma all_chars_rstrip f s :
  all_chars f s = true -> all_chars f (PyStr.rstrip s) = true.
Proof.
  induction s as [|c s IH]; [reflexivity|].
  intros H. simpl in H. apply andb_true_iff in H. destruct H as [Hc Hs].
  cbn [PyStr.rstrip]. specialize (IH Hs).
  destruct (PyStr.rstrip s) as [|d r].
  - destruct (PyStr.isspace c); [reflexivity|]. simpl. now rewrite Hc.
  - cbn [all_chars] in *. now rewrite Hc, IH.
Qed.

Lemma rstrip_idempotent s : PyStr.rstrip (PyStr.rstrip s) = PyStr.rstrip s.
Proof.
  induction s as [|c s IH]; [reflexivity|].
  cbn [PyStr.rstrip]. destruct (PyStr.rstrip s) as [|d r] eqn:E.
  - destruct (PyStr.isspace c) eqn:Ec; [reflexivity|].
    simpl. rewrite Ec. reflexivity.
  - cbn [PyStr.rstrip]. cbn [PyStr.rstrip] in IH. rewrite IH. reflexivity.
Qed.

Lemma lstrip_starts_visible s :
  match PyStr.lstrip s with
  | EmptyString => True
  | String c _ => visible c = true
  end.
Proof.
  induction s as [|c s IH]; [exact I|].
  cbn [PyStr.lstrip]. destruct (PyStr.isspace c) eqn:E; [exact IH|].
  unfold visible. now rewrite E.
Qed.

Lemma rstrip_keeps_visible_head c s :
  visible c = true -> exists t, PyStr.rstrip (String c s) = String c t.
Proof.
  intros Hc. unfold visible in Hc. apply negb_true_iff in Hc.
  cbn [PyStr.rstrip]. destruct (PyStr.rstrip s) as [|d r].
  - rewrite Hc. exists "". reflexivity.
  - exists (String d r). reflexivity.
Qed.

(** What [strip] returns is empty or starts and ends with a visible
    character. *)
Lemma strip_is_stripped s :
  PyStr.rstrip (PyStr.strip s) = PyStr.strip s
  /\ match PyStr.strip s with
     | EmptyString => True
     | String c _ => visible c = true
     end.
Proof.
  unfold PyStr.strip. split; [apply rstrip_idempotent|].
  pose proof (lstrip_starts_visible s) as H.
  destruct (PyStr.lstrip s) as [|c t]; [exact I|].
  destruct (rstrip_keeps_visible_head c t H) as (t' & ->). exact H.
Qed.

Lemma split_pieces_one_line s :
  Forall (fun line => one_line line = true) (PyStr.split newline s).
Proof.
  induction s as [|c s IH]; [repeat constructor|].
  cbn [PyStr.split]. destruct (Ascii.eqb c newline) eqn:E.
  - constructor; [reflexivity | exact IH].
  - destruct (PyStr.split newline s) as [|w ws]; [repeat constructor|].
    + unfold one_line, not_newline. simpl. now rewrite E.
    + inversion IH as [|? ? Hw Hws]; subst. constructor; [|exact Hws].
      unfold one_line, not_newline in *. simpl. now rewrite E, Hw.
Qed.

Lemma templates_of_clean out :
  Forall (fun t => is_name_text t = true /\ PyStr.rstrip t = t
                   /\ PyStr.startswith "==" t = false)
         (templates_of out).
Proof.
  unfold templates_of. apply Forall_forall. intros t Ht.
  apply filter_In in Ht. destruct Ht as [Hin Hkeep].
  apply in_map_iff in Hin. destruct Hin as (line & <- & Hline).
  pose proof (split_pieces_one_line (PyStr.strip out)) as Hall.
  rewrite Forall_forall in Hall. specialize (Hall line Hline).
  destruct (strip_is_stripped line) as [Hrs Hhead].
  unfold keep_template_line in Hkeep.
  apply andb_true_iff in Hkeep. destruct Hkeep as [Hkeep _].
  apply andb_true_iff in Hkeep. destruct Hkeep as [Hne Hhdr].
  apply negb_true_iff in Hhdr.
  split; [|split; [exact Hrs | exact Hhdr]].
  unfold is_name_text.
  assert (one_line (PyStr.strip line) = true) as Hone.
  { unfold PyStr.strip, one_line. apply all_chars_rstrip, all_chars_lstrip.
    exact Hall. }
  rewrite Hone, andb_true_r.
  destruct (PyStr.strip line); [discriminate | exact Hhead].
Qed.

Lemma templates_of_length out :
  length (templates_of out)
  <= length (PyStr.split newline (PyStr.strip out)).
Proof.
  unfold templates_of.
  rewrite <- (length_map PyStr.strip (PyStr.split newline (PyStr.strip out))).
  apply filter_length_le.
Qed.

(** What [list_templates] gives for every answer of the tool: a nonzero
    exit raises [RuntimeError] with the tool's standard error; otherwise
    the list has at most one entry per line of output, and every entry
    is a template name as printed: on one line, starting and ending with
    a visible character, and no "==" header. *)
Theorem list_templates_entries
    (subprocess_run : list string -> M CompletedProcess)
    (w w' : World) (r : CompletedProcess) :
  subprocess_run ["xcrun"; "xctrace"; "list"; "templates"] w = (Return r, w') ->
  (returncode r <> 0%Z ->
   list_templates subprocess_run w
   = (Raise (RuntimeError ("xctrace failed: " ++ stderr r)), w'))
  /\ (returncode r = 0%Z ->
      exists templates,
        list_templates subprocess_run w = (Return templates, w')
        /\ length templates
           <= length (PyStr.split newline (PyStr.strip (stdout r)))
        /\ Forall (fun t => is_name_text t = true /\ PyStr.rstrip t = t
                            /\ PyStr.startswith "==" t = false) templates).
Proof.
  intros Hrun. unfold list_templates. rewrite (bind_return _ _ _ _ _ Hrun).
  split.
  - intros H. apply Z.eqb_neq in H. rewrite H. reflexivity.
  - intros ->. exists (templates_of (stdout r)).
    split; [reflexivity|].
    split; [apply templates_of_length | apply templates_of_clean].
Qed.

Lemma list_templates_entries_witness :
  exists templates,
    list_templates (tool_exits 0 template_listing "") empty_world
    = (Return templates, empty_world)
    /\ length templates
       <= length (PyStr.split newline (PyStr.strip template_listing))
    /\ Forall (fun t => is_name_text t = true /\ PyStr.rstrip t = t
                        /\ PyStr.startswith "==" t = false) templates.
Proof.
  exact (proj2 (list_templates_entries (tool_exits 0 template_listing "")
                  empty_world empty_world (mkCompleted 0 template_listing "")
                  eq_refl) eq_refl).
Defined.

(** ** Symbols of a binary *)

Lemma split_words_cons c s :
  PySeq.split_words (String c s)
  = if PyStr.isspace c then PySeq.split_words s
    else match s with
         | EmptyString => [String c EmptyString]
         | String d _ =>
             if PyStr.isspace d
             then String c EmptyString :: PySeq.split_words s
             else match PySeq.split_words s with
                  | w :: ws => String c w :: ws
                  | [] => [String c EmptyString]
                  end
         end.
Proof. destruct s; reflexivity. Qed.

Lemma is_word_single c : PyStr.isspace c = false -> is_word (String c "") = true.
Proof. intros H. unfold is_word, visible. simpl. now rewrite H. Qed.

Lemma is_word_cons c w :
  PyStr.isspace c = false -> is_word w = true -> is_word (String c w) = true.
Proof.
  unfold is_word, visible. intros Hc Hw.
  apply andb_true_iff in Hw. simpl. now rewrite Hc, (proj2 Hw).
Qed.

(** Every item of [split()] is a word. *)
Lemma split_words_are_words s :
  Forall (fun w => is_word w = true) (PySeq.split_words s).
Proof.
  induction s as [|c s IH]; [constructor|].
  rewrite split_words_cons.
  destruct (PyStr.isspace c) eqn:Ec; [exact IH|].
  destruct s as [|d s'].
  - constructor; [exact (is_word_single c Ec) | constructor].
  - destruct (PyStr.isspace d).
    + constructor; [exact (is_word_single c Ec) | exact IH].
    + destruct (PySeq.split_words (String d s')) as [|w ws].
      * constructor; [exact (is_word_single c Ec) | constructor].
      * inversion IH as [|? ? Hw Hws]; subst.
        constructor; [exact (is_word_cons c w Ec Hw) | exact Hws].
Qed.

Lemma symbols_of_line_length line : length (symbols_of_line line) <= 1.
Proof.
  unfold symbols_of_line.
  destruct (PySeq.split_words line) as [|a [|b [|c [|d l]]]]; simpl; lia.
Qed.

Lemma symbols_of_line_fields line :
  Forall (fun sym => exists type name,
                       field sym "type" = Some type
                       /\ field sym "name" = Some name
                       /\ is_word type = true /\ is_word name = true)
         (symbols_of_line line).
Proof.
  unfold symbols_of_line.
  pose proof (split_words_are_words line) as H.
  destruct (PySeq.split_words line) as [|a [|b [|c [|d l]]]];
    try constructor; try constructor.
  - inversion H as [|? ? Ha H1]; subst. inversion H1 as [|? ? Hb _]; subst.
    exists a, b. repeat split; assumption.
  - inversion H as [|? ? Ha H1]; subst. inversion H1 as [|? ? Hb H2]; subst.
    inversion H2 as [|? ? Hc _]; subst.
    exists b, c. repeat split; assumption.
Qed.

Lemma flat_map_length_le {A B} (f : A -> list B) l :
  (forall x, length (f x) <= 1) -> length (flat_map f l) <= length l.
Proof.
  intros H. induction l as [|x l IH]; [apply le_n|].
  cbn [flat_map]. rewrite length_app. specialize (H x). simpl. lia.
Qed.

Lemma slice_to_length {A} limit (l : list A) :
  (0 <= limit)%Z -> length (PySeq.slice_to limit l) <= Z.to_nat limit.
Proof.
  intros H. unfold PySeq.slice_to.
  apply Z.leb_le in H. rewrite H. apply firstn_le_length.
Qed.

Lemma symbols_of_bounded limit out :
  (0 <= limit)%Z -> length (symbols_of limit out) <= Z.to_nat limit.
Proof.
  intros H. unfold symbols_of.
  etransitivity; [apply flat_map_length_le, symbols_of_line_length|].
  apply slice_to_length, H.
Qed.

Lemma symbols_of_fields limit out :
  Forall (fun sym => exists type name,
                       field sym "type" = Some type
                       /\ field sym "name" = Some name
                       /\ is_word type = true /\ is_word name = true)
         (symbols_of limit out).
Proof.
  unfold symbols_of. apply Forall_forall. intros sym H.
  apply in_flat_map in H. destruct H as (line & _ & H).
  pose proof (symbols_of_line_fields line) as Hall.
  rewrite Forall_forall in Hall. exact (Hall sym H).
Qed.

Lemma get_symbols_returns run binary_path limit w syms w' :
  get_symbols run binary_path limit w = (Return syms, w') ->
  exists out, syms = symbols_of limit out.
Proof.
  unfold get_symbols, bind.
  destruct (run ["xcrun"; "nm"; "-g"; binary_path] w) as [[r1|e] w1];
    [|discriminate].
  destruct (negb (returncode r1 =? 0)%Z).
  - destruct (run ["xcrun"; "nm"; binary_path] w1) as [[r2|e] w2];
      [|discriminate].
    unfold ret. intros H. injection H as <- _. exists (stdout r2). reflexivity.
  - unfold ret. intros H. injection H as <- _. exists (stdout r1). reflexivity.
Qed.

(** Whatever [nm] prints, [get_symbols] returns at most [limit] symbols
    for a limit that is not negative, and every symbol it returns has a
    [type] and a [name], both non-empty and free of whitespace. *)
Theorem get_symbols_bounded_and_named
    (subprocess_run : list string -> M CompletedProcess)
    (binary_path : string) (limit : Z) (w w' : World) (syms : list Symbol) :
  get_symbols subprocess_run binary_path limit w = (Return syms, w') ->
  ((0 <= limit)%Z -> length syms <= Z.to_nat limit)
  /\ Forall (fun sym => exists type name,
                          field sym "type" = Some type
                          /\ field sym "name" = Some name
                          /\ is_word type = true /\ is_word name = true)
            syms.
Proof.
  intros H. apply get_symbols_returns in H. destruct H as (out & ->).
  split; [apply symbols_of_bounded | apply symbols_of_fields].
Qed.

Lemma get_symbols_bounded_and_named_witness :
  length [[("address", "0000000100003f20"); ("type", "T"); ("name", "_main")]]
  <= Z.to_nat 1.
Proof.
  refine (proj1 (get_symbols_bounded_and_named (tool_exits 0 nm_listing "")
                   "/bin/app" 1 empty_world empty_world _ eq_refl) _).
  discriminate.
Defined.

(** A failing [nm -g] is no error: [get_symbols] runs [nm] once more
    without [-g] and reads whatever that run printed, without looking at
    its exit status; it raises nothing as long as the two runs come back. *)
Theorem get_symbols_falls_back
    (subprocess_run : list string -> M CompletedProcess)
    (binary_path : string) (limit : Z) (w w1 w2 : World)
    (r1 r2 : CompletedProcess) :
  subprocess_run ["xcrun"; "nm"; "-g"; binary_path] w = (Return r1, w1) ->
  returncode r1 <> 0%Z ->
  subprocess_run ["xcrun"; "nm"; binary_path] w1 = (Return r2, w2) ->
  get_symbols subprocess_run binary_path limit w
  = (Return (symbols_of limit (stdout r2)), w2).
Proof.
  intros H1 Hfail H2. unfold get_symbols.
  rewrite (bind_return _ _ _ _ _ H1).
  apply Z.eqb_neq in Hfail. rewrite Hfail. cbn [negb].
  rewrite (bind_return _ _ _ _ _ H2). reflexivity.
Qed.

Lemma get_symbols_falls_back_witness :
  get_symbols nm_needs_plain_run "/bin/app" 50 empty_world
  = (Return
       [[("address", "0000000100003f20"); ("type", "T"); ("name", "_main")];
        [("type", "U"); ("name", "_printf")]], empty_world).
Proof.
  apply (get_symbols_falls_back nm_needs_plain_run "/bin/app" 50 empty_world
           empty_world empty_world (mkCompleted 1 "" "nm: error")
           (mkCompleted 0 nm_listing "")).
  - reflexivity.
  - discriminate.
  - reflexivity.
Defined.

(** ** Trace comparison *)

(** Rounding to the nearest integer stays within half a unit. *)
Lemma round_half_even_near n d :
  (0 < d)%Z ->
  (- d <= 2 * (d * round_half_even n d - n) <= d)%Z.
Proof.
  intros Hd. unfold round_half_even.
  pose proof (Z.div_mod n d ltac:(lia)) as Hn.
  pose proof (Z.mod_pos_bound n d Hd) as Hr.
  set (q := (n / d)%Z) in *. set (r := (n mod d)%Z) in *.
  destruct (2 * r <? d)%Z eqn:E1; [apply Z.ltb_lt in E1; lia|].
  apply Z.ltb_ge in E1.
  destruct (d <? 2 * r)%Z eqn:E2; [apply Z.ltb_lt in E2; lia|].
  apply Z.ltb_ge in E2.
  destruct (Z.even q); lia.
Qed.

(** Ties to even make the rounding odd-symmetric. *)
Lemma round_half_even_opp n d :
  (0 < d)%Z -> round_half_even (- n) d = (- round_half_even n d)%Z.
Proof.
  intros Hd. unfold round_half_even.
  pose proof (Z.mod_pos_bound n d Hd) as Hr.
  destruct (Z.eq_dec (n mod d) 0) as [Hz|Hnz].
  - rewrite (Z.div_opp_l_z n d ltac:(lia) Hz), (Z.mod_opp_l_z n d ltac:(lia) Hz), Hz.
    destruct (2 * 0 <? d)%Z eqn:E; [reflexivity|].
    apply Z.ltb_ge in E. lia.
  - rewrite (Z.div_opp_l_nz n d ltac:(lia) Hnz), (Z.mod_opp_l_nz n d ltac:(lia) Hnz).
    set (q := (n / d)%Z). set (r := (n mod d)%Z) in *.
    destruct (2 * r <? d)%Z eqn:E1.
    + apply Z.ltb_lt in E1.
      destruct (2 * (d - r) <? d)%Z eqn:E3; [apply Z.ltb_lt in E3; lia|].
      destruct (d <? 2 * (d - r))%Z eqn:E4; [lia|].
      apply Z.ltb_ge in E4. lia.
    + apply Z.ltb_ge in E1.
      destruct (d <? 2 * r)%Z eqn:E2.
      * apply Z.ltb_lt in E2.
        destruct (2 * (d - r) <? d)%Z eqn:E3; [lia|].
        apply Z.ltb_ge in E3. lia.
      * apply Z.ltb_ge in E2.
        destruct (2 * (d - r) <? d)%Z eqn:E3; [apply Z.ltb_lt in E3; lia|].
        destruct (d <? 2 * (d - r))%Z eqn:E4; [apply Z.ltb_lt in E4; lia|].
        replace (- q - 1)%Z with (- (q + 1))%Z by lia.
        rewrite Z.even_opp, Z.even_add. cbn [Z.even].
        destruct (Z.even q); cbn; lia.
Qed.

Lemma round2_opp x : round2 (- x) = (- round2 x)%Q.
Proof.
  unfold round2. rewrite <- Qred_opp. f_equal.
  destruct x as [n d]. cbn [Qopp Qnum Qden].
  replace (100 * - n)%Z with (- (100 * n))%Z by lia.
  rewrite round_half_even_opp by reflexivity. reflexivity.
Qed.

Lemma round2_close x :
  exists k, (round2 x == k # 100)%Q
            /\ (- Zpos (Qden x) <= 2 * (Zpos (Qden x) * k - 100 * Qnum x)
                <= Zpos (Qden x))%Z.
Proof.
  exists (round_half_even (100 * Qnum x) (Zpos (Qden x))).
  split; [apply Qred_correct|].
  apply round_half_even_near. reflexivity.
Qed.

Lemma get_trace_size_cases path w :
  get_trace_size path w
  = match files w path with
    | Some n => (Return (Qmake (Z.of_N n) 1048576), w)
    | None => (Raise (FileNotFoundError ("Trace not found: " ++ path)), w)
    end.
Proof.
  unfold get_trace_size, bind, path_exists, getsize.
  destruct (files w path) eqn:E; cbn; rewrite ?E; reflexivity.
Qed.

(** Both traces must be there, and the baseline is looked at first: a
    missing baseline is reported even when the current trace is missing
    too; a missing current trace is reported only when the baseline is
    there. Nothing is changed on the way. *)
Theorem compare_traces_missing_trace
    (percent_change : Q -> Q -> Q) (baseline_path current_path : string)
    (w : World) :
  (files w baseline_path = None ->
   compare_traces percent_change baseline_path current_path w
   = (Raise (FileNotFoundError ("Trace not found: " ++ baseline_path)), w))
  /\ (files w baseline_path <> None -> files w current_path = None ->
      compare_traces percent_change baseline_path current_path w
      = (Raise (FileNotFoundError ("Trace not found: " ++ current_path)), w)).
Proof.
  unfold compare_traces, bind. rewrite !get_trace_size_cases. split.
  - intros ->. reflexivity.
  - intros Hb Hc. destruct (files w baseline_path); [|contradiction].
    rewrite get_trace_size_cases, Hc. reflexivity.
Qed.

(** Swapping baseline and current negates the size difference, and swaps
    the two size entries. *)
Theorem compare_traces_swap
    (percent_change : Q -> Q -> Q) (baseline_path current_path : string)
    (w : World) (nb nc : N) :
  files w baseline_path = Some nb ->
  files w current_path = Some nc ->
  exists x y,
    compare_traces percent_change baseline_path current_path w = (Return x, w)
    /\ compare_traces percent_change current_path baseline_path w = (Return y, w)
    /\ size_diff_mb y = (- size_diff_mb x)%Q
    /\ baseline y = current x /\ current y = baseline x.
Proof.
  intros Hb Hc. unfold compare_traces, bind.
  rewrite !get_trace_size_cases, Hb, Hc, !get_trace_size_cases, Hb, Hc.
  eexists. eexists. split; [reflexivity|]. split; [reflexivity|].
  cbn [size_diff_mb baseline current]. split; [|split; reflexivity].
  rewrite <- round2_opp. unfold round2. f_equal. f_equal.
  cbn [Qminus Qplus Qopp Qnum Qden]. f_equal. lia.
Qed.

Lemma compare_traces_swap_witness :
  exists x y,
    compare_traces percent_exact "before.trace" "after.trace" two_traces
    = (Return x, two_traces)
    /\ compare_traces percent_exact "after.trace" "before.trace" two_traces
       = (Return y, two_traces)
    /\ size_diff_mb y = (- size_diff_mb x)%Q
    /\ baseline y = current x /\ current y = baseline x.
Proof.
  exact (compare_traces_swap percent_exact "before.trace" "after.trace"
           two_traces 4000 9000 eq_refl eq_refl).
Defined.

Lemma compare_traces_missing_trace_witness :
  compare_traces percent_exact "gone.trace" "also-gone.trace" two_traces
  = (Raise (FileNotFoundError "Trace not found: gone.trace"), two_traces)
  /\ compare_traces percent_exact "before.trace" "gone.trace" two_traces
     = (Raise (FileNotFoundError "Trace not found: gone.trace"), two_traces).
Proof.
  split.
  - exact (proj1 (compare_traces_missing_trace percent_exact "gone.trace"
                    "also-gone.trace" two_traces) eq_refl).
  - refine (proj2 (compare_traces_missing_trace percent_exact "before.trace"
                     "gone.trace" two_traces) _ eq_refl).
    discriminate.
Defined.

Lemma round_half_even_scale n d k :
  (0 < d)%Z -> (0 < k)%Z ->
  round_half_even (n * k) (d * k) = round_half_even n d.
Proof.
  intros Hd Hk. unfold round_half_even.
  rewrite (Z.div_mul_cancel_r n d k) by lia.
  rewrite (Z.mul_mod_distr_r n d k) by lia.
  pose proof (Z.mod_pos_bound n d Hd) as Hr.
  set (q := (n / d)%Z). set (r := (n mod d)%Z) in *.
  destruct (2 * r <? d)%Z eqn:E1.
  - apply Z.ltb_lt in E1.
    destruct (2 * (r * k) <? d * k)%Z eqn:E; [reflexivity|].
    apply Z.ltb_ge in E. nia.
  - apply Z.ltb_ge in E1.
    destruct (2 * (r * k) <? d * k)%Z eqn:E; [apply Z.ltb_lt in E; nia|].
    destruct (d <? 2 * r)%Z eqn:E2.
    + apply Z.ltb_lt in E2.
      destruct (d * k <? 2 * (r * k))%Z eqn:E3; [reflexivity|].
      apply Z.ltb_ge in E3. nia.
    + apply Z.ltb_ge in E2.
      destruct (d * k <? 2 * (r * k))%Z eqn:E3; [apply Z.ltb_lt in E3; nia|].
      reflexivity.
Qed.

(** An empty baseline is no division by zero: the percentage is 0
    whatever the current size, the float computation is not consulted, and
    the size difference is the size entry of the current trace. *)
Theorem compare_traces_empty_baseline
    (percent_change : Q -> Q -> Q) (baseline_path current_path : string)
    (w : World) (nc : N) :
  files w baseline_path = Some 0%N ->
  files w current_path = Some nc ->
  exists x,
    compare_traces percent_change baseline_path current_path w = (Return x, w)
    /\ size_diff_percent x = 0%Q
    /\ size_diff_mb x = snd (current x)
    /\ snd (baseline x) = 0%Q.
Proof.
  intros Hb Hc. unfold compare_traces, bind.
  rewrite !get_trace_size_cases, Hb, get_trace_size_cases, Hc.
  eexists. split; [reflexivity|].
  cbn [size_diff_percent size_diff_mb current baseline snd].
  split; [reflexivity|]. split; [|reflexivity].
  unfold round2. f_equal. f_equal.
  cbn [Qminus Qplus Qopp Qnum Qden Z.of_N Z.opp]. 
  replace (100 * (Z.of_N nc * 1048576 + 0 * 1048576))%Z
    with (100 * Z.of_N nc * 1048576)%Z by lia.
  change (Z.pos (1048576 * 1048576)) with (1048576 * 1048576)%Z.
  apply round_half_even_scale; reflexivity.
Qed.

Lemma compare_traces_empty_baseline_witness :
  exists x,
    compare_traces (fun _ _ => 1%Q) "empty.trace" "after.trace"
      (write_file "empty.trace" 0 two_traces)
    = (Return x, write_file "empty.trace" 0 two_traces)
    /\ size_diff_percent x = 0%Q
    /\ size_diff_mb x = snd (current x)
    /\ snd (baseline x) = 0%Q.
Proof.
  exact (compare_traces_empty_baseline (fun _ _ => 1%Q) "empty.trace"
           "after.trace" (write_file "empty.trace" 0 two_traces) 9000
           eq_refl eq_refl).
Defined.

(** The three rounded figures need not add up, but they never miss by
    more than one hundredth: the size difference is the difference of the
    two size entries, or one hundredth above or below it. *)
Theorem compare_traces_difference_of_sizes
    (percent_change : Q -> Q -> Q) (baseline_path current_path : string)
    (w : World) (nb nc : N) :
  files w baseline_path = Some nb ->
  files w current_path = Some nc ->
  exists x k,
    compare_traces percent_change baseline_path current_path w = (Return x, w)
    /\ (k = -1 \/ k = 0 \/ k = 1)%Z
    /\ (size_diff_mb x == snd (current x) - snd (baseline x) + (k # 100))%Q.
Proof.
  intros Hb Hc. unfold compare_traces, bind.
  rewrite !get_trace_size_cases, Hb, get_trace_size_cases, Hc.
  destruct (round2_close (Qmake (Z.of_N nb) 1048576)) as (rb & Hrb & Bb).
  destruct (round2_close (Qmake (Z.of_N nc) 1048576)) as (rc & Hrc & Bc).
  destruct (round2_close (Qmake (Z.of_N nc) 1048576 - Qmake (Z.of_N nb) 1048576)%Q)
    as (rd & Hrd & Bd).
  cbn [Qminus Qplus Qopp Qnum Qden] in Bb, Bc, Bd.
  change (Z.pos (1048576 * 1048576)) with 1099511627776%Z in Bd.
  change (Z.pos 1048576) with 1048576%Z in *.
  eexists. exists (rd - rc + rb)%Z. split; [reflexivity|].
  cbn [size_diff_mb current baseline snd].
  split; [lia|].
  rewrite Hrb, Hrc, Hrd.
  unfold Qeq, Qminus, Qplus, Qopp. cbn [Qnum Qden]. lia.
Qed.

Lemma compare_traces_difference_of_sizes_witness :
  exists x k,
    compare_traces percent_exact "before.trace" "after.trace" two_traces
    = (Return x, two_traces)
    /\ (k = -1 \/ k = 0 \/ k = 1)%Z
    /\ (size_diff_mb x == snd (current x) - snd (baseline x) + (k # 100))%Q.
Proof.
  exact (compare_traces_difference_of_sizes percent_exact "before.trace"
           "after.trace" two_traces 4000 9000 eq_refl eq_refl).
Defined.

(** The figures of the witness: 4000 and 9000 bytes are shown as 0 and
    0.01 MB, their difference as 0 MB. *)
Lemma compare_traces_figures_example :
  exists x,
    compare_traces percent_exact "before.trace" "after.trace" two_traces
    = (Return x, two_traces)
    /\ snd (baseline x) = 0%Q /\ snd (current x) = (1 # 100)%Q
    /\ size_diff_mb x = 0%Q.
Proof. eexists. split; [reflexivity|]. repeat split. Qed.

(** ** Linked libraries *)




Lemma library_of_line_length line : length (library_of_line line) <= 1.
Proof.
  unfold library_of_line.
  destruct (PyStr.nonempty (PyStr.strip line)); [|apply le_0_n].
  destruct (PyStr.nonempty _); simpl; lia.
Qed.

Lemma library_of_line_stripped line lib :
  In lib (library_of_line line) ->
  PyStr.rstrip lib = lib
  /\ exists c t, lib = String c t /\ visible c = true.
Proof.
  unfold library_of_line.
  destruct (PyStr.nonempty (PyStr.strip line)); [|intros []].
  set (piece := hd "" (PySplit.split " (" (PyStr.strip line))).
  destruct (strip_is_stripped piece) as [Hrs Hhead].
  destruct (PyStr.strip piece) as [|c t]; [intros []|].
  intros [<-|[]]. split; [exact Hrs|].
  exists c, t. split; [reflexivity | exact Hhead].
Qed.

(** What [get_libraries] gives for every answer of [otool -L]: a nonzero
    exit raises [RuntimeError] with the tool's standard error; otherwise
    the first line of the output (the binary's own path) never counts, so
    there are fewer libraries than lines, and every library is a
    non-empty text that starts and ends with a visible character. *)
Theorem get_libraries_entries
    (subprocess_run : list string -> M CompletedProcess)
    (binary_path : string) (w w' : World) (r : CompletedProcess) :
  subprocess_run ["xcrun"; "otool"; "-L"; binary_path] w = (Return r, w') ->
  (returncode r <> 0%Z ->
   get_libraries subprocess_run binary_path w
   = (Raise (RuntimeError ("otool failed: " ++ stderr r)), w'))
  /\ (returncode r = 0%Z ->
      exists libraries,
        get_libraries subprocess_run binary_path w = (Return libraries, w')
        /\ length libraries
           < length (PyStr.split newline (PyStr.strip (stdout r)))
        /\ Forall (fun lib => PyStr.rstrip lib = lib
                              /\ exists c t, lib = String c t
                                             /\ visible c = true)
                  libraries).
Proof.
  intros Hrun. unfold get_libraries. rewrite (bind_return _ _ _ _ _ Hrun).
  split.
  - intros H. apply Z.eqb_neq in H. rewrite H. reflexivity.
  - intros ->. exists (libraries_of (stdout r)).
    split; [reflexivity|]. unfold libraries_of. split.
    + pose proof (split_nonempty newline (PyStr.strip (stdout r))) as Hne.
      destruct (PyStr.split newline (PyStr.strip (stdout r))) as [|l ls];
        [contradiction|].
      cbn [tl length]. apply Nat.lt_succ_r.
      apply flat_map_length_le, library_of_line_length.
    + apply Forall_forall. intros lib H. apply in_flat_map in H.
      destruct H as (line & _ & H).
      exact (library_of_line_stripped line lib H).
Qed.

Lemma get_libraries_entries_witness :
  exists libraries,
    get_libraries (tool_exits 0 otool_listing "") "/bin/app" empty_world
    = (Return libraries, empty_world)
    /\ length libraries
       < length (PyStr.split newline (PyStr.strip otool_listing))
    /\ Forall (fun lib => PyStr.rstrip lib = lib
                          /\ exists c t, lib = String c t /\ visible c = true)
              libraries.
Proof.
  exact (proj2 (get_libraries_entries (tool_exits 0 otool_listing "")
                  "/bin/app" empty_world empty_world
                  (mkCompleted 0 otool_listing "") eq_refl) eq_refl).
Defined.


